(** * padz.py: the Python client of the padz command-line tool

    A shallow embedding of [src/apis/padz.py].  The module shells out to the
    external [padz] executable, reads its JSON output and maps it to typed
    results or to exceptions.

    Python data is modelled as follows.
    - [str] is [string]; every character is a code point below 256.
    - [int] is [Z]; [bool] is [bool]; [None] is [JNull] among decoded values
      and [option] for optional arguments.
    - Objects decoded by [json.loads] are the inductive [value]; a [dict] is
      an association list in insertion order.
    - Exceptions are the inductive [exn]; a computation that may raise is an
      [outcome]; a computation that may also call [subprocess.run] lives in
      the monad [M], whose state is the list of the calls made so far.
    - The external world (what [subprocess.run] answers) and the library
      decoder [json.loads] are the two fields of the class [Platform]; the
      client and its properties are stated for every platform. *)

From Stdlib Require Import ZArith List String Ascii Bool Lia.
From Stdlib Require Import DecimalString.
Import ListNotations.

Local Open Scope string_scope.
Local Open Scope Z_scope.
Local Open Scope list_scope.

Set Warnings "-register-all,-notation-for-abbreviation".

(** ** Python strings *)

Module PyStr.

(** Truth value of a [str]: false exactly on the empty string. *)
Definition truthy (s : string) : bool :=
  match s with
  | EmptyString => false
  | String _ _ => true
  end.

(** [a or b] on strings. *)
Definition or_ (a b : string) : string :=
  if truthy a then a else b.

(** [str(n)] for an [int]. *)
Definition of_int (n : Z) : string :=
  NilZero.string_of_int (Z.to_int n).

(** [c.isspace()] for a code point below 256. *)
Definition isspace (c : ascii) : bool :=
  let n := nat_of_ascii c in
  ((9 <=? n) && (n <=? 13))%nat
  || ((28 <=? n) && (n <=? 32))%nat
  || (n =? 133)%nat
  || (n =? 160)%nat.

Fixpoint lstrip (s : string) : string :=
  match s with
  | EmptyString => EmptyString
  | String c r => if isspace c then lstrip r else s
  end.

(** [rstrip] keeps a character when it is not a space or when something
    remains after it. *)
Fixpoint rstrip (s : string) : string :=
  match s with
  | EmptyString => EmptyString
  | String c r =>
      match rstrip r with
      | EmptyString => if isspace c then EmptyString else String c EmptyString
      | r' => String c r'
      end
  end.

(** [s.strip()] *)
Definition strip (s : string) : string := rstrip (lstrip s).

(** [s.replace(old, new)] for a one-character [old]. *)
Fixpoint replace_char (old : ascii) (new : string) (s : string) : string :=
  match s with
  | EmptyString => EmptyString
  | String c r =>
      if Ascii.eqb c old
      then (new ++ replace_char old new r)%string
      else String c (replace_char old new r)
  end.

(** The characters of a string, as iterating over a [str] yields them. *)
Fixpoint chars (s : string) : list string :=
  match s with
  | EmptyString => []
  | String c r => String c EmptyString :: chars r
  end.

(** [repr(s)]: the quote is the double quote only when the text holds an
    apostrophe and no double quote; the quote and the backslash are
    escaped, and so is every character that is not printable. *)
Definition hex_digit (n : Z) : ascii :=
  ascii_of_nat (Z.to_nat (if n <? 10 then 48 + n else 87 + n)).

Fixpoint contains (c : ascii) (s : string) : bool :=
  match s with
  | EmptyString => false
  | String c' r => Ascii.eqb c c' || contains c r
  end.

(** [c.isprintable()] for a code point below 256. *)
Definition printable (n : Z) : bool :=
  ((32 <=? n) && (n <? 127)) || ((161 <=? n) && negb (n =? 173)).

Fixpoint repr_body (q : ascii) (s : string) : string :=
  match s with
  | EmptyString => String q EmptyString
  | String c r =>
      let n := Z.of_nat (nat_of_ascii c) in
      let rest := repr_body q r in
      let backslash := ascii_of_nat 92 in
      if Ascii.eqb c q || (n =? 92) then String backslash (String c rest)
      else if n =? 9 then String backslash (String "t" rest)
      else if n =? 10 then String backslash (String "n" rest)
      else if n =? 13 then String backslash (String "r" rest)
      else if printable n then String c rest
      else String backslash
             (String "x" (String (hex_digit (n / 16))
                            (String (hex_digit (n mod 16)) rest)))
  end.

Definition repr (s : string) : string :=
  let double := ascii_of_nat 34 in
  let single := ascii_of_nat 39 in
  let q := if contains single s && negb (contains double s)
           then double else single in
  String q (repr_body q s).

End PyStr.

(** ** Decoded values *)

(** What [json.loads] returns: [None], [bool], [int], [float] (kept as its
    literal), [str], [list] and [dict]. *)
Inductive value : Type :=
| JNull
| JBool (b : bool)
| JInt (n : Z)
| JFloat (literal : string)
| JStr (s : string)
| JArr (items : list value)
| JObj (members : list (string * value)).

Module PyDict.

(** [d.get(k)] on the members of a [dict]. *)
Fixpoint get (k : string) (d : list (string * value)) : option value :=
  match d with
  | [] => None
  | (k', v) :: r => if String.eqb k k' then Some v else get k r
  end.

(** [k in d] *)
Definition contains (k : string) (d : list (string * value)) : bool :=
  match get k d with
  | Some _ => true
  | None => false
  end.

(** [d[k] = v]: an existing key keeps its position. *)
Fixpoint set (k : string) (v : value) (d : list (string * value))
  : list (string * value) :=
  match d with
  | [] => [(k, v)]
  | (k', v') :: r =>
      if String.eqb k k' then (k, v) :: r else (k', v') :: set k v r
  end.

End PyDict.

(** ** Exceptions *)

(** The exception classes the module can meet.  [PadzError_t] is the only
    class the module declares (line 48); the others are Python's. *)
Inductive exc_class : Type :=
| Exception_t
| PadzError_t
| ValueError_t
| JSONDecodeError_t
| LookupError_t
| KeyError_t
| TypeError_t
| AttributeError_t
| OSError_t
| FileNotFoundError_t
| PermissionError_t
| SubprocessError_t.

Definition exc_class_eqb (a b : exc_class) : bool :=
  match a, b with
  | Exception_t, Exception_t
  | PadzError_t, PadzError_t
  | ValueError_t, ValueError_t
  | JSONDecodeError_t, JSONDecodeError_t
  | LookupError_t, LookupError_t
  | KeyError_t, KeyError_t
  | TypeError_t, TypeError_t
  | AttributeError_t, AttributeError_t
  | OSError_t, OSError_t
  | FileNotFoundError_t, FileNotFoundError_t
  | PermissionError_t, PermissionError_t
  | SubprocessError_t, SubprocessError_t => true
  | _, _ => false
  end.

(** The direct base class; [class PadzError(Exception)]. *)
Definition base (c : exc_class) : option exc_class :=
  match c with
  | Exception_t => None
  | PadzError_t => Some Exception_t
  | ValueError_t => Some Exception_t
  | JSONDecodeError_t => Some ValueError_t
  | LookupError_t => Some Exception_t
  | KeyError_t => Some LookupError_t
  | TypeError_t => Some Exception_t
  | AttributeError_t => Some Exception_t
  | OSError_t => Some Exception_t
  | FileNotFoundError_t => Some OSError_t
  | PermissionError_t => Some OSError_t
  | SubprocessError_t => Some Exception_t
  end.

Fixpoint issubclass_fuel (fuel : nat) (c d : exc_class) : bool :=
  exc_class_eqb c d
  || match fuel with
     | O => false
     | S f =>
         match base c with
         | Some b => issubclass_fuel f b d
         | None => false
         end
     end.

(** [issubclass(c, d)]; no chain of bases is longer than three. *)
Definition issubclass (c d : exc_class) : bool := issubclass_fuel 3 c d.

(** A class that specialises [d] and is not [d] itself. *)
Definition proper_subclass (c d : exc_class) : bool :=
  issubclass c d && negb (exc_class_eqb c d).

(** Raised exceptions, with the argument they were built from. *)
Inductive exn : Type :=
| PadzError (arg : value)
| ValueError (msg : string)
| JSONDecodeError
| KeyError (key : string)
| TypeError
| AttributeError
| FileNotFoundError
| PermissionError
| SubprocessError (msg : string).

(** [type(e)] *)
Definition class_of (e : exn) : exc_class :=
  match e with
  | PadzError _ => PadzError_t
  | ValueError _ => ValueError_t
  | JSONDecodeError => JSONDecodeError_t
  | KeyError _ => KeyError_t
  | TypeError => TypeError_t
  | AttributeError => AttributeError_t
  | FileNotFoundError => FileNotFoundError_t
  | PermissionError => PermissionError_t
  | SubprocessError _ => SubprocessError_t
  end.

(** [isinstance(e, c)], the test an [except c] clause makes. *)
Definition isinstance (e : exn) (c : exc_class) : bool :=
  issubclass (class_of e) c.

(** [str(e)] for the exceptions [subprocess.run] raises. *)
Definition str_exn (e : exn) : string :=
  match e with
  | ValueError m => m
  | SubprocessError m => m
  | _ => EmptyString
  end.

(** ** Computations that may raise *)

Inductive outcome (A : Type) : Type :=
| Ret (a : A)
| Raise (e : exn).

Arguments Ret {A} a.
Arguments Raise {A} e.

Module Out.

Definition bind {A B} (m : outcome A) (k : A -> outcome B) : outcome B :=
  match m with
  | Ret a => k a
  | Raise e => Raise e
  end.

(** [for x in l], stopping at the first exception. *)
Fixpoint map_list {A B} (f : A -> outcome B) (l : list A)
  : outcome (list B) :=
  match l with
  | [] => Ret []
  | x :: r =>
      bind (f x) (fun y => bind (map_list f r) (fun ys => Ret (y :: ys)))
  end.

End Out.

(** [v[k]] with a string key [k]. *)
Definition subscript (v : value) (k : string) : outcome value :=
  match v with
  | JObj d =>
      match PyDict.get k d with
      | Some x => Ret x
      | None => Raise (KeyError k)
      end
  | _ => Raise TypeError
  end.

(** [iter(v)]: a list yields its items, a dict its keys, a string its
    characters; nothing else is iterable. *)
Definition py_iter (v : value) : outcome (list value) :=
  match v with
  | JArr l => Ret l
  | JObj d => Ret (map (fun kv => JStr (fst kv)) d)
  | JStr s => Ret (map JStr (PyStr.chars s))
  | _ => Raise TypeError
  end.

(** ** [datetime] *)

(** A [datetime]; [tzinfo] is the UTC offset in microseconds of an aware
    value and [None] for a naive one. *)
Record datetime : Type := mk_datetime {
  year : Z;
  month : Z;
  day : Z;
  hour : Z;
  minute : Z;
  second : Z;
  microsecond : Z;
  tzinfo : option Z
}.

Module DateTime.

(** [datetime.fromisoformat] as CPython 3.11 implements it in
    [Modules/_datetimemodule.c].  The text is read as its UTF-8 bytes, a
    buffer that ends with a zero byte; positions in it are indices, and a
    read at or past the end gives zero.  The functions keep the names of
    the C functions they follow. *)

Definition digit_of (c : ascii) : option Z :=
  let n := Z.of_nat (nat_of_ascii c) in
  if (48 <=? n) && (n <=? 57) then Some (n - 48) else None.

(** What [fromisoformat] does with a text: it returns a [datetime], or it
    refuses the text, or a constructor refuses a field with the message
    [msg]. *)
Inductive verdict : Type :=
| Parsed (t : datetime)
| Invalid
| OutOfRange (msg : string).

(** The UTF-8 bytes of a [str] whose code points are below 256. *)
Fixpoint utf8 (s : string) : list Z :=
  match s with
  | EmptyString => []
  | String c r =>
      let n := Z.of_nat (nat_of_ascii c) in
      if n <? 128 then n :: utf8 r
      else (192 + n / 64) :: (128 + n mod 64) :: utf8 r
  end.

Definition byte_at (buf : list Z) (i : nat) : Z := nth i buf 0.

Definition is_digit (b : Z) : bool := (48 <=? b) && (b <=? 57).

(** [parse_digits(ptr, var, num_digits)]: the value of [n] digits from
    position [p] and the position after them. *)
Fixpoint parse_digits (buf : list Z) (p : nat) (n : nat) (acc : Z)
  : option (Z * nat) :=
  match n with
  | O => Some (acc, p)
  | S n' =>
      let b := byte_at buf p in
      if is_digit b then parse_digits buf (S p) n' (acc * 10 + (b - 48))
      else None
  end.

(** The position of the first byte from [p] on that is not a digit. *)
Fixpoint skip_digits (fuel : nat) (buf : list Z) (p : nat) : nat :=
  match fuel with
  | O => p
  | S f => if is_digit (byte_at buf p) then skip_digits f buf (S p) else p
  end.

(** The fraction of a second: at most six digits count, the ones after
    them are skipped; the flag tells whether something follows. *)
Definition fraction (buf : list Z) (p_end : nat) (h m s : Z) (p : nat)
  : option (Z * Z * Z * Z * bool) :=
  let to_parse := Nat.min (p_end - p) 6 in
  match parse_digits buf p to_parse 0 with
  | None => None
  | Some (us, p') =>
      let us := us * 10 ^ Z.of_nat (6 - to_parse) in
      let q := skip_digits (List.length buf) buf p' in
      Some (h, m, s, us, negb (byte_at buf q =? 0))
  end.

(** The loop over hour, minute and second of [parse_hh_mm_ss_ff]; [todo]
    counts the components still to read and [first] marks the hour, whose
    following character decides whether the components are separated by
    colons. *)
Fixpoint components (buf : list Z) (p_end : nat) (todo : nat) (first : bool)
    (has_separator : bool) (vals : list Z) (p : nat)
  : option (Z * Z * Z * Z * bool) :=
  match todo with
  | O => fraction buf p_end (nth 0 vals 0) (nth 1 vals 0) (nth 2 vals 0) p
  | S todo' =>
      match parse_digits buf p 2 0 with
      | None => None
      | Some (v, p1) =>
          let vals := vals ++ [v] in
          let h := nth 0 vals 0 in
          let m := nth 1 vals 0 in
          let s := nth 2 vals 0 in
          let c := byte_at buf p1 in
          let has_separator := if first then c =? 58 else has_separator in
          if (p_end <=? S p1)%nat then Some (h, m, s, 0, negb (c =? 0))
          else if has_separator && (c =? 58) then
            components buf p_end todo' false has_separator vals (S p1)
          else if (c =? 46) || (c =? 44) then fraction buf p_end h m s (S p1)
          else if negb has_separator then
            components buf p_end todo' false has_separator vals p1
          else None
      end
  end.

(** [parse_hh_mm_ss_ff(tstr, tstr_end, ...)]: the four fields, and whether
    something follows them. *)
Definition parse_hh_mm_ss_ff (buf : list Z) (p p_end : nat)
  : option (Z * Z * Z * Z * bool) :=
  components buf p_end 3 true true [] p.

(** One of [Z], [+] and [-]. *)
Definition is_tz_mark (b : Z) : bool := (b =? 90) || (b =? 43) || (b =? 45).

(** The [do ... while] scan of [parse_isoformat_time] for the first mark
    of a UTC offset. *)
Fixpoint find_tz (fuel : nat) (buf : list Z) (p_end : nat) (i : nat) : nat :=
  if is_tz_mark (byte_at buf i) then i
  else match fuel with
       | O => S i
       | S f => if (S i <? p_end)%nat then find_tz f buf p_end (S i) else S i
       end.

(** [parse_isoformat_time]: the time fields and the offset, in seconds and
    microseconds, when there is one. *)
Definition parse_isoformat_time (buf : list Z) (p len : nat)
  : option (Z * Z * Z * Z * option (Z * Z)) :=
  let p_end := (p + len)%nat in
  let tzinfo_pos := find_tz len buf p_end p in
  match parse_hh_mm_ss_ff buf p tzinfo_pos with
  | None => None
  | Some (h, m, s, us, more) =>
      if (tzinfo_pos =? p_end)%nat then
        if more then None else Some (h, m, s, us, None)
      else if byte_at buf tzinfo_pos =? 90 then
        if byte_at buf (S tzinfo_pos) =? 0
        then Some (h, m, s, us, Some (0, 0))
        else None
      else
        let sign := if byte_at buf tzinfo_pos =? 45 then -1 else 1 in
        match parse_hh_mm_ss_ff buf (S tzinfo_pos) p_end with
        | Some (th, tm, ts, tus, false) =>
            Some (h, m, s, us,
                  Some (sign * (th * 3600 + tm * 60 + ts), sign * tus))
        | _ => None
        end
  end.

(** [_find_isoformat_datetime_separator]: where the date ends; [None] is
    its [-1]. *)
Definition find_separator (buf : list Z) (len : nat) : option nat :=
  if (len =? 7)%nat then Some 7%nat
  else if byte_at buf 4 =? 45 then
    if byte_at buf 5 =? 87 then
      if (len <? 8)%nat then None
      else if (8 <? len)%nat && (byte_at buf 8 =? 45) then
        if (len =? 9)%nat then None
        else if (10 <? len)%nat && is_digit (byte_at buf 10) then Some 8%nat
        else Some 10%nat
      else Some 8%nat
    else Some 10%nat
  else if byte_at buf 4 =? 87 then
    let idx := skip_digits (len - 7) buf 7 in
    if (idx <? 9)%nat then Some idx
    else if Nat.even idx then Some 7%nat
    else Some 8%nat
  else Some 8%nat.

(** The calendar arithmetic of the module; integer division is that of C,
    which rounds toward zero. *)
Definition is_leap (y : Z) : bool :=
  (Z.rem y 4 =? 0) && (negb (Z.rem y 100 =? 0) || (Z.rem y 400 =? 0)).

Definition days_in_month (y m : Z) : Z :=
  if m =? 2 then (if is_leap y then 29 else 28)
  else if (m =? 4) || (m =? 6) || (m =? 9) || (m =? 11) then 30
  else 31.

(** [_days_before_month] *)
Definition days_before_month_table (m : Z) : Z :=
  nth (Z.to_nat m)
    [0; 0; 31; 59; 90; 120; 151; 181; 212; 243; 273; 304; 334] 0.

Definition days_before_month (y m : Z) : Z :=
  days_before_month_table m + (if (2 <? m) && is_leap y then 1 else 0).

Definition days_before_year (y : Z) : Z :=
  let y := y - 1 in
  y * 365 + Z.quot y 4 - Z.quot y 100 + Z.quot y 400.

Definition ymd_to_ord (y m d : Z) : Z :=
  days_before_year y + days_before_month y m + d.

(** Monday is 0. *)
Definition weekday (y m d : Z) : Z := Z.rem (ymd_to_ord y m d + 6) 7.

Definition iso_week1_monday (y : Z) : Z :=
  let first_day := ymd_to_ord y 1 1 in
  let first_weekday := Z.rem (first_day + 6) 7 in
  let week1_monday := first_day - first_weekday in
  if 3 <? first_weekday then week1_monday + 7 else week1_monday.

Definition ord_to_ymd (ordinal : Z) : Z * Z * Z :=
  let ordinal := ordinal - 1 in
  let n400 := Z.quot ordinal 146097 in
  let n := Z.rem ordinal 146097 in
  let n100 := Z.quot n 36524 in
  let n := Z.rem n 36524 in
  let n4 := Z.quot n 1461 in
  let n := Z.rem n 1461 in
  let n1 := Z.quot n 365 in
  let n := Z.rem n 365 in
  let y := n400 * 400 + 1 + n100 * 100 + n4 * 4 + n1 in
  if (n1 =? 4) || (n100 =? 4) then (y - 1, 12, 31)
  else
    let leapyear := (n1 =? 3) && (negb (n4 =? 24) || (n100 =? 3)) in
    let m := Z.shiftr (n + 50) 5 in
    let preceding :=
      days_before_month_table m + (if (2 <? m) && leapyear then 1 else 0) in
    if n <? preceding
    then let m := m - 1 in
         let preceding := preceding - days_in_month y m in
         (y, m, n - preceding + 1)
    else (y, m, n - preceding + 1).

(** The date of the day [iso_day] of the week [iso_week] of [iso_year]. *)
Definition iso_to_ymd (iso_year iso_week iso_day : Z) : option (Z * Z * Z) :=
  let week_ok :=
    if (iso_week <=? 0) || (53 <=? iso_week) then
      (iso_week =? 53)
      && (let first_weekday := weekday iso_year 1 1 in
          (first_weekday =? 3)
          || ((first_weekday =? 2) && is_leap iso_year))
    else true in
  if negb week_ok then None
  else if (iso_day <=? 0) || (8 <=? iso_day) then None
  else
    let day_1 := iso_week1_monday iso_year in
    let day_offset := (iso_week - 1) * 7 + iso_day - 1 in
    Some (ord_to_ymd (day_1 + day_offset)).

(** [parse_isoformat_date(dtstr, len, ...)]: a calendar date, with or
    without dashes, or a week date. *)
Definition parse_isoformat_date (buf : list Z) (len : option nat)
  : option (Z * Z * Z) :=
  match parse_digits buf 0 4 0 with
  | None => None
  | Some (y, p) =>
      let uses_separator := byte_at buf p =? 45 in
      let p := if uses_separator then S p else p in
      if byte_at buf p =? 87 then
        match parse_digits buf (S p) 2 0 with
        | None => None
        | Some (w, p) =>
            let before_end :=
              match len with
              | Some n => (p <? n)%nat
              | None => true
              end in
            if before_end then
              if uses_separator && negb (byte_at buf p =? 45) then None
              else
                let p := if uses_separator then S p else p in
                match parse_digits buf p 1 0 with
                | None => None
                | Some (d, _) => iso_to_ymd y w d
                end
            else iso_to_ymd y w 1
        end
      else
        match parse_digits buf p 2 0 with
        | None => None
        | Some (m, p) =>
            if uses_separator && negb (byte_at buf p =? 45) then None
            else
              let p := if uses_separator then S p else p in
              match parse_digits buf p 2 0 with
              | None => None
              | Some (d, _) => Some (y, m, d)
              end
        end
  end.

Definition day_us : Z := 86400 * 1000000.

(** [repr] of a [timedelta] of [us] microseconds. *)
Definition repr_timedelta (us : Z) : string :=
  let days := us / day_us in
  let rest := us mod day_us in
  let secs := rest / 1000000 in
  let micro := rest mod 1000000 in
  let parts :=
    (if days =? 0 then [] else [("days=" ++ PyStr.of_int days)%string])
    ++ (if secs =? 0 then [] else [("seconds=" ++ PyStr.of_int secs)%string])
    ++ (if micro =? 0 then []
        else [("microseconds=" ++ PyStr.of_int micro)%string]) in
  match parts with
  | [] => "datetime.timedelta(0)"%string
  | _ => ("datetime.timedelta(" ++ String.concat ", " parts ++ ")")%string
  end.

(** The checks of the [timezone] and [datetime] constructors, in the order
    they are made.  An offset of zero seconds is UTC. *)
Definition construct (y mo d h mi s us : Z) (tz : option (Z * Z)) : verdict :=
  let offset :=
    match tz with
    | None => None
    | Some (secs, micro) =>
        if secs =? 0 then Some 0 else Some (secs * 1000000 + micro)
    end in
  let bad_offset :=
    match offset with
    | Some off => negb ((- day_us <? off) && (off <? day_us))
    | None => false
    end in
  if bad_offset then
    OutOfRange
      ("offset must be a timedelta strictly between -timedelta(hours=24) and timedelta(hours=24), not "
       ++ repr_timedelta (match offset with Some off => off | None => 0 end)
       ++ ".")%string
  else if (y <? 1) || (9999 <? y) then
    OutOfRange ("year " ++ PyStr.of_int y ++ " is out of range")%string
  else if (mo <? 1) || (12 <? mo) then OutOfRange "month must be in 1..12"
  else if (d <? 1) || (days_in_month y mo <? d) then
    OutOfRange "day is out of range for month"
  else if (h <? 0) || (23 <? h) then OutOfRange "hour must be in 0..23"
  else if (mi <? 0) || (59 <? mi) then OutOfRange "minute must be in 0..59"
  else if (s <? 0) || (59 <? s) then OutOfRange "second must be in 0..59"
  else Parsed (mk_datetime y mo d h mi s us offset).

(** [datetime.fromisoformat(s)], with the reason of a refusal. *)
Definition parse (s : string) : verdict :=
  let buf := utf8 s in
  let len := List.length buf in
  if (len <? 7)%nat then Invalid
  else
    let sep := find_separator buf len in
    match parse_isoformat_date buf sep with
    | None => Invalid
    | Some (y, mo, d) =>
        match sep with
        | None => Invalid
        | Some n =>
            if (n <? len)%nat then
              let p := if byte_at buf n <? 128 then S n else S (S n) in
              match parse_isoformat_time buf p (len - p) with
              | None => Invalid
              | Some (h, mi, sec, us, tz) => construct y mo d h mi sec us tz
              end
            else construct y mo d 0 0 0 0 None
        end
    end.

(** [datetime.fromisoformat(s)]; [None] stands for its [ValueError]. *)
Definition fromisoformat (s : string) : option datetime :=
  match parse s with
  | Parsed t => Some t
  | _ => None
  end.

(** Days from 1970-01-01 to the given civil date. *)
Definition days_from_civil (y m d : Z) : Z :=
  let y' := if m <=? 2 then y - 1 else y in
  let era := y' / 400 in
  let yoe := y' - era * 400 in
  let mp := (m + 9) mod 12 in
  let doy := (153 * mp + 2) / 5 + d - 1 in
  let doe := yoe * 365 + yoe / 4 - yoe / 100 + doy in
  era * 146097 + doe - 719468.

(** The instant of an aware [datetime], in microseconds since the epoch
    (1970-01-01T00:00:00 UTC); a naive value names no instant. *)
Definition instant (t : datetime) : option Z :=
  match tzinfo t with
  | None => None
  | Some off =>
      Some ((days_from_civil (year t) (month t) (day t) * 86400
             + hour t * 3600 + minute t * 60 + second t) * 1000000
            + microsecond t - off)
  end.

(** [datetime(y, m, d, tzinfo=timezone.utc)] at midnight. *)
Definition utc_midnight (y m d : Z) : datetime :=
  mk_datetime y m d 0 0 0 0 (Some 0).

End DateTime.


(** ** The result types *)

(** [@dataclass class Scratch].  The annotations are not enforced when an
    instance is built, so the three text fields hold whatever was decoded. *)
Record Scratch : Type := mk_Scratch {
  id : value;
  project : value;
  title : value;
  created_at : datetime
}.

(** [@dataclass class PathResult] *)
Record PathResult : Type := mk_PathResult {
  path : string
}.

(** [@dataclass class NukeResult]; [project_name] defaults to [None]. *)
Record NukeResult : Type := mk_NukeResult {
  deleted_count : value;
  scope : value;
  project_name : value
}.

(** [v.replace(old, new)] with a one-character [old]: a method of [str]
    only. *)
Definition py_replace (v : value) (old : ascii) (new : string)
  : outcome string :=
  match v with
  | JStr s => Ret (PyStr.replace_char old new s)
  | _ => Raise AttributeError
  end.

(** [v.get(k)]: a method of [dict] only; a missing key gives [None]. *)
Definition py_get (v : value) (k : string) : outcome value :=
  match v with
  | JObj d =>
      match PyDict.get k d with
      | Some x => Ret x
      | None => Ret JNull
      end
  | _ => Raise AttributeError
  end.

(** [datetime.fromisoformat(s)], with the [ValueError] of a text it
    refuses or of a field out of range. *)
Definition py_fromisoformat (s : string) : outcome datetime :=
  match DateTime.parse s with
  | DateTime.Parsed t => Ret t
  | DateTime.Invalid =>
      Raise (ValueError ("Invalid isoformat string: " ++ PyStr.repr s)%string)
  | DateTime.OutOfRange msg => Raise (ValueError msg)
  end.

Module Scratch.

(** [Scratch.from_dict(data)], lines 23-31.  The keyword arguments are
    evaluated in the order written. *)
Definition from_dict (data : value) : outcome Scratch :=
  Out.bind (subscript data "id") (fun id_ =>
  Out.bind (subscript data "project") (fun project_ =>
  Out.bind (subscript data "title") (fun title_ =>
  Out.bind (subscript data "created_at") (fun raw =>
  Out.bind (py_replace raw "Z" "+00:00") (fun iso =>
  Out.bind (py_fromisoformat iso) (fun created =>
  Ret (mk_Scratch id_ project_ title_ created))))))).

End Scratch.

(** ** The subprocess and the monad of the client *)

(** The arguments [_exec] gives to [subprocess.run]; [capture_output],
    [text] and [check] are constants there. *)
Record run_request : Type := mk_run_request {
  run_cmd : list string;
  run_cwd : option string;
  run_input : option string
}.

(** [subprocess.CompletedProcess], with the captured text. *)
Record CompletedProcess : Type := mk_CompletedProcess {
  returncode : Z;
  stdout : string;
  stderr : string
}.

(** What a call of [subprocess.run] does: it returns or it raises. *)
Inductive run_result : Type :=
| Completed (p : CompletedProcess)
| RunRaised (e : exn).

(** The two library entry points the client depends on: the answer of the
    operating system to [subprocess.run], and [json.loads], where [None]
    stands for [json.JSONDecodeError]. *)
Class Platform : Type := mk_Platform {
  subprocess_run : run_request -> run_result;
  json_loads : string -> option value
}.

(** The calls of [subprocess.run] made so far, oldest first. *)
Definition trace : Type := list run_request.

Definition M (A : Type) : Type := trace -> outcome A * trace.

Module Mon.

Definition ret {A} (a : A) : M A := fun tr => (Ret a, tr).

Definition raise {A} (e : exn) : M A := fun tr => (Raise e, tr).

Definition bind {A B} (m : M A) (k : A -> M B) : M B :=
  fun tr =>
    match m tr with
    | (Ret a, tr') => k a tr'
    | (Raise e, tr') => (Raise e, tr')
    end.

Definition lift {A} (o : outcome A) : M A := fun tr => (o, tr).

(** The first [except] clause whose class matches handles the exception;
    with none, it propagates. *)
Fixpoint dispatch {A} (hs : list (exc_class * (exn -> M A))) (e : exn)
  : M A :=
  match hs with
  | [] => raise e
  | (c, h) :: r => if isinstance e c then h e else dispatch r e
  end.

(** [try: m  except c1: h1  except c2: h2 ...] *)
Definition try_except {A} (m : M A) (hs : list (exc_class * (exn -> M A)))
  : M A :=
  fun tr =>
    match m tr with
    | (Ret a, tr') => (Ret a, tr')
    | (Raise e, tr') => dispatch hs e tr'
    end.

(** [subprocess.run(...)]: the call is recorded, then it returns or
    raises as the platform says. *)
Definition run {pf : Platform} (req : run_request) : M CompletedProcess :=
  fun tr =>
    (match subprocess_run req with
     | Completed p => Ret p
     | RunRaised e => Raise e
     end, tr ++ [req]).

(** [json.loads(s)] *)
Definition loads {pf : Platform} (s : string) : M value :=
  match json_loads s with
  | Some v => ret v
  | None => raise JSONDecodeError
  end.

End Mon.

Declare Scope py_scope.
Delimit Scope py_scope with py.
Notation "x <- m ;; k" := (Mon.bind m (fun x => k))
  (at level 61, m at next level, right associativity) : py_scope.
Notation "m ;; k" := (Mon.bind m (fun _ => k))
  (at level 61, right associativity) : py_scope.

(** [isinstance(v, dict)] *)
Definition is_dict (v : value) : bool :=
  match v with
  | JObj _ => true
  | _ => false
  end.

(** [k in v] for a [dict] [v]. *)
Definition in_dict (k : string) (v : value) : bool :=
  match v with
  | JObj d => PyDict.contains k d
  | _ => false
  end.

(** [if c: args.append(a)] *)
Definition append_if (c : bool) (a : string) (args : list string)
  : list string :=
  if c then args ++ [a] else args.

(** [class PadzClient]: the working directory is its only attribute. *)
Record PadzClient : Type := mk_PadzClient {
  cwd : option string
}.

Module PadzClient.
Section Methods.

Context {pf : Platform}.
Local Open Scope py_scope.

(** The check both error paths of [_exec] make on a decoded text:
    [if isinstance(data, dict) and 'error' in data:
       raise PadzError(data['error'])]. *)
Definition raise_embedded_error (data : value) : M unit :=
  if is_dict data && in_dict "error" data
  then v <- Mon.lift (subscript data "error") ;; Mon.raise (PadzError v)
  else Mon.ret tt.

(** [PadzClient._exec], lines 65-118. *)
Definition _exec (self : PadzClient) (args : list string)
    (input_text : option string) : M string :=
  let cmd := "padz" :: args in
  Mon.try_except
    (result <- Mon.run (mk_run_request cmd (cwd self) input_text) ;;
     (* Check for errors in stdout (JSON format) *)
     (if PyStr.truthy (stdout result)
      then Mon.try_except
             (data <- Mon.loads (stdout result) ;;
              raise_embedded_error data)
             [(JSONDecodeError_t, fun _ => Mon.ret tt)]
      else Mon.ret tt) ;;
     (* Check exit code *)
     if negb (returncode result =? 0)
     then
       let error_msg :=
         PyStr.or_ (PyStr.or_ (stderr result) (stdout result))
           ("Command failed with exit code "
            ++ PyStr.of_int (returncode result))%string in
       Mon.try_except
         (error_data <- Mon.loads error_msg ;;
          raise_embedded_error error_data)
         [(JSONDecodeError_t, fun _ => Mon.ret tt)] ;;
       Mon.raise (PadzError (JStr (PyStr.strip error_msg)))
     else Mon.ret (stdout result))
    [ (FileNotFoundError_t, fun _ =>
         Mon.raise (PadzError (JStr
           "padz command not found. Please ensure padz is installed and in PATH")));
      (SubprocessError_t, fun e =>
         Mon.raise (PadzError (JStr
           ("Failed to execute command: " ++ str_exn e)%string))) ].

(** [PadzClient.create], lines 120-138. *)
Definition create (self : PadzClient) (content : string) : M Scratch :=
  if negb (PyStr.truthy content)
  then Mon.raise (ValueError "Content cannot be empty")
  else
    output <- _exec self ["--format"; "json"] (Some content) ;;
    data <- Mon.loads output ;;
    Mon.lift (Scratch.from_dict data).

(** [[Scratch.from_dict(item) for item in data]] *)
Definition scratches (data : value) : outcome (Datatypes.list Scratch) :=
  Out.bind (py_iter data) (Out.map_list Scratch.from_dict).

(** [PadzClient.list], lines 140-159. *)
Definition list (self : PadzClient) (all global_ : bool)
  : M (Datatypes.list Scratch) :=
  let args := ["ls"; "--format"; "json"] in
  let args := append_if all "--all" args in
  let args := append_if global_ "--global" args in
  output <- _exec self args None ;;
  data <- Mon.loads output ;;
  Mon.lift (scratches data).

(** [PadzClient.view], lines 161-181. *)
Definition view (self : PadzClient) (index : Z) (all global_ : bool)
  : M value :=
  let args := ["view"; PyStr.of_int index; "--format"; "json"] in
  let args := append_if all "--all" args in
  let args := append_if global_ "--global" args in
  output <- _exec self args None ;;
  data <- Mon.loads output ;;
  Mon.lift (subscript data "content").

(** [PadzClient.open], lines 183-195. *)
Definition open (self : PadzClient) (index : Z) (all : bool) : M unit :=
  let args := ["open"; PyStr.of_int index; "--format"; "json"] in
  let args := append_if all "--all" args in
  _exec self args None ;;
  Mon.ret tt.

(** [PadzClient.peek], lines 197-218. *)
Definition peek (self : PadzClient) (index : Z) (all global_ : bool)
    (lines : Z) : M value :=
  let args := ["peek"; PyStr.of_int index; "--format"; "json";
               "--lines"; PyStr.of_int lines] in
  let args := append_if all "--all" args in
  let args := append_if global_ "--global" args in
  output <- _exec self args None ;;
  data <- Mon.loads output ;;
  Mon.lift (subscript data "content").

(** [PadzClient.delete], lines 220-232. *)
Definition delete (self : PadzClient) (index : Z) (all : bool) : M unit :=
  let args := ["delete"; PyStr.of_int index; "--format"; "json"] in
  let args := append_if all "--all" args in
  _exec self args None ;;
  Mon.ret tt.

(** [PadzClient.path], lines 234-251. *)
Definition path (self : PadzClient) (index : Z) (all : bool) : M value :=
  let args := ["path"; PyStr.of_int index; "--format"; "json"] in
  let args := append_if all "--all" args in
  output <- _exec self args None ;;
  data <- Mon.loads output ;;
  Mon.lift (subscript data "path").

(** [PadzClient.search], lines 253-273. *)
Definition search (self : PadzClient) (term : string) (all global_ : bool)
  : M (Datatypes.list Scratch) :=
  let args := ["search"; term; "--format"; "json"] in
  let args := append_if all "--all" args in
  let args := append_if global_ "--global" args in
  output <- _exec self args None ;;
  data <- Mon.loads output ;;
  Mon.lift (scratches data).

(** [PadzClient.cleanup], lines 275-283. *)
Definition cleanup (self : PadzClient) (days : Z) : M unit :=
  let args := ["cleanup"; "--format"; "json"; "--days"; PyStr.of_int days] in
  _exec self args None ;;
  Mon.ret tt.

(** [PadzClient.nuke], lines 285-312. *)
Definition nuke (self : PadzClient) (all yes : bool) : M NukeResult :=
  if negb yes
  then Mon.raise (PadzError (JStr
         "Must set yes=True for non-interactive nuke operation"))
  else
    let args := ["nuke"; "--format"; "json"; "--yes"] in
    let args := append_if all "--all" args in
    output <- _exec self args None ;;
    data <- Mon.loads output ;;
    Mon.lift
      (Out.bind (subscript data "deleted_count") (fun n =>
       Out.bind (subscript data "scope") (fun s =>
       Out.bind (py_get data "project_name") (fun p =>
       Ret (mk_NukeResult n s p))))).

(** [PadzClient.with_cwd], lines 314-324. *)
Definition with_cwd (self : PadzClient) (cwd : string) : PadzClient :=
  mk_PadzClient (Some cwd).

End Methods.
End PadzClient.

(** ** The operations as one type *)

(** A call of one of the ten operations with its arguments. *)
Inductive call : Type :=
| Create (content : string)
| List (all global_ : bool)
| View (index : Z) (all global_ : bool)
| Open (index : Z) (all : bool)
| Peek (index : Z) (all global_ : bool) (lines : Z)
| Delete (index : Z) (all : bool)
| Path (index : Z) (all : bool)
| Search (term : string) (all global_ : bool)
| Cleanup (days : Z)
| Nuke (all yes : bool).

(** What an operation returns. *)
Inductive answer : Type :=
| AScratch (s : Scratch)
| AScratches (l : list Scratch)
| AValue (v : value)
| ANone
| ANuke (r : NukeResult).

Definition map_M {A B} (f : A -> B) (m : M A) : M B :=
  Mon.bind m (fun a => Mon.ret (f a)).

(** Runs a call on a client. *)
Definition perform {pf : Platform} (self : PadzClient) (c : call) : M answer :=
  match c with
  | Create content => map_M AScratch (PadzClient.create self content)
  | List all global_ => map_M AScratches (PadzClient.list self all global_)
  | View index all global_ =>
      map_M AValue (PadzClient.view self index all global_)
  | Open index all => map_M (fun _ => ANone) (PadzClient.open self index all)
  | Peek index all global_ lines =>
      map_M AValue (PadzClient.peek self index all global_ lines)
  | Delete index all =>
      map_M (fun _ => ANone) (PadzClient.delete self index all)
  | Path index all => map_M AValue (PadzClient.path self index all)
  | Search term all global_ =>
      map_M AScratches (PadzClient.search self term all global_)
  | Cleanup days => map_M (fun _ => ANone) (PadzClient.cleanup self days)
  | Nuke all yes => map_M ANuke (PadzClient.nuke self all yes)
  end.

(** The operations that decode the output of the tool. *)
Definition parses_output (c : call) : bool :=
  match c with
  | Open _ _ | Delete _ _ | Cleanup _ => false
  | _ => true
  end.

(** ** The module-level functions, lines 327-378 *)

Module padz.
Section Functions.

Context {pf : Platform}.

(** [_default_client = PadzClient()] *)
Definition _default_client : PadzClient := mk_PadzClient None.

Definition create (content : string) := PadzClient.create _default_client content.
Definition view (index : Z) (all global_ : bool) :=
  PadzClient.view _default_client index all global_.
Definition open (index : Z) (all : bool) :=
  PadzClient.open _default_client index all.
Definition peek (index : Z) (all global_ : bool) (lines : Z) :=
  PadzClient.peek _default_client index all global_ lines.
Definition delete (index : Z) (all : bool) :=
  PadzClient.delete _default_client index all.
Definition path (index : Z) (all : bool) :=
  PadzClient.path _default_client index all.
Definition search (term : string) (all global_ : bool) :=
  PadzClient.search _default_client term all global_.
Definition cleanup (days : Z) := PadzClient.cleanup _default_client days.
Definition nuke (all yes : bool) := PadzClient.nuke _default_client all yes.
Definition list (all global_ : bool) :=
  PadzClient.list _default_client all global_.

End Functions.
End padz.

(** ** A decoder for JSON texts

    [Json.loads] follows the grammar [json.loads] reads: white space,
    [null], [true], [false], [NaN] and the infinities, numbers, strings
    with their escapes, arrays and objects (a repeated key keeps its last
    value); [None] stands for [json.JSONDecodeError].  Strings of the model
    hold code points below 256, so a [\u] escape above U+00FF is refused.
    The properties of the client are proved for every decoder; this one
    instantiates them. *)

Module Json.

Definition is_ws (c : ascii) : bool :=
  let n := nat_of_ascii c in
  ((n =? 32) || (n =? 9) || (n =? 10) || (n =? 13))%nat.

Fixpoint skip_ws (s : string) : string :=
  match s with
  | String c r => if is_ws c then skip_ws r else s
  | EmptyString => s
  end.

(** [s] without its prefix [p]. *)
Fixpoint after (p s : string) : option string :=
  match p, s with
  | EmptyString, _ => Some s
  | String a p', String b s' => if Ascii.eqb a b then after p' s' else None
  | String _ _, EmptyString => None
  end.

Definition is_digit (c : ascii) : bool :=
  match DateTime.digit_of c with
  | Some _ => true
  | None => false
  end.

(** The longest prefix of digits, and what follows it. *)
Fixpoint span_digits (s : string) : string * string :=
  match s with
  | String c r =>
      if is_digit c
      then let (d, r') := span_digits r in (String c d, r')
      else (EmptyString, s)
  | EmptyString => (EmptyString, EmptyString)
  end.

Fixpoint digits_value (acc : Z) (s : string) : Z :=
  match s with
  | String c r =>
      match DateTime.digit_of c with
      | Some d => digits_value (10 * acc + d) r
      | None => acc
      end
  | EmptyString => acc
  end.

(** The integer part: [0], or a digit from 1 to 9 and more digits. *)
Definition int_part (s : string) : option (string * string) :=
  match s with
  | String "0" r => Some ("0"%string, r)
  | String c r =>
      if is_digit c
      then let (d, r') := span_digits r in Some (String c d, r')
      else None
  | EmptyString => None
  end.

(** The fraction [.digits], when there is one. *)
Definition frac_part (s : string) : string * string :=
  match s with
  | String "." r =>
      match span_digits r with
      | (EmptyString, _) => (EmptyString, s)
      | (d, r') => (String "." d, r')
      end
  | _ => (EmptyString, s)
  end.

(** The exponent [e], [e+] or [e-] and digits, when there is one. *)
Definition exp_part (s : string) : string * string :=
  match s with
  | String e r =>
      if (Ascii.eqb e "e" || Ascii.eqb e "E")%bool
      then
        let (sign, r1) :=
          match r with
          | String c r' =>
              if (Ascii.eqb c "+" || Ascii.eqb c "-")%bool
              then (String c EmptyString, r')
              else (EmptyString, r)
          | EmptyString => (EmptyString, r)
          end in
        match span_digits r1 with
        | (EmptyString, _) => (EmptyString, s)
        | (d, r') => (String e (sign ++ d), r')
        end
      else (EmptyString, s)
  | EmptyString => (EmptyString, s)
  end.

(** A number: an [int] without fraction and exponent, else a [float]. *)
Definition number (s : string) : option (value * string) :=
  let (neg, s1) :=
    match s with
    | String "-" r => (true, r)
    | _ => (false, s)
    end in
  match int_part s1 with
  | None => None
  | Some (i, s2) =>
      let (f, s3) := frac_part s2 in
      let (e, s4) := exp_part s3 in
      match f, e with
      | EmptyString, EmptyString =>
          let n := digits_value 0 i in
          Some (JInt (if neg then - n else n), s4)
      | _, _ =>
          Some (JFloat ((if neg then "-" else EmptyString) ++ i ++ f ++ e)%string, s4)
      end
  end.

Definition hex_of (c : ascii) : option Z :=
  let n := Z.of_nat (nat_of_ascii c) in
  if (48 <=? n) && (n <=? 57) then Some (n - 48)
  else if (97 <=? n) && (n <=? 102) then Some (n - 87)
  else if (65 <=? n) && (n <=? 70) then Some (n - 55)
  else None.

(** The code point of a [\u] escape with the digits [a b c d]. *)
Definition hex4 (a b c d : ascii) : option Z :=
  match hex_of a, hex_of b, hex_of c, hex_of d with
  | Some x, Some y, Some z, Some w =>
      Some (((x * 16 + y) * 16 + z) * 16 + w)
  | _, _, _, _ => None
  end.

Definition quote : ascii := ascii_of_nat 34.

Definition backslash : ascii := ascii_of_nat 92.

Definition escape (c : ascii) : option ascii :=
  if Ascii.eqb c quote then Some quote
  else if Ascii.eqb c backslash then Some backslash
  else if Ascii.eqb c "/" then Some "/"%char
  else if Ascii.eqb c "b" then Some (ascii_of_nat 8)
  else if Ascii.eqb c "f" then Some (ascii_of_nat 12)
  else if Ascii.eqb c "n" then Some (ascii_of_nat 10)
  else if Ascii.eqb c "r" then Some (ascii_of_nat 13)
  else if Ascii.eqb c "t" then Some (ascii_of_nat 9)
  else None.

Definition push (c : ascii) (r : option (string * string))
  : option (string * string) :=
  match r with
  | Some (t, rest) => Some (String c t, rest)
  | None => None
  end.

(** The rest of a string after its opening quote: the decoded text and
    what follows the closing quote.  A raw control character is refused. *)
Fixpoint string_body (s : string) : option (string * string) :=
  match s with
  | EmptyString => None
  | String c r =>
      if Ascii.eqb c quote then Some (EmptyString, r)
      else if Ascii.eqb c backslash then
        match r with
        | String e r1 =>
            if Ascii.eqb e "u" then
              match r1 with
              | String a (String b (String c' (String d r2))) =>
                  match hex4 a b c' d with
                  | Some n =>
                      if n <? 256
                      then push (ascii_of_nat (Z.to_nat n)) (string_body r2)
                      else None
                  | None => None
                  end
              | _ => None
              end
            else
              match escape e with
              | Some x => push x (string_body r1)
              | None => None
              end
        | EmptyString => None
        end
      else if (nat_of_ascii c <? 32)%nat then None
      else push c (string_body r)
  end.

(** A value, and what follows it.  [fuel] bounds the nesting and the
    number of items read. *)
Fixpoint parse_value (fuel : nat) (s : string) : option (value * string) :=
  match fuel with
  | O => None
  | S f =>
      match s with
      | EmptyString => None
      | String c r =>
          if Ascii.eqb c quote then
            match string_body r with
            | Some (t, r') => Some (JStr t, r')
            | None => None
            end
          else if Ascii.eqb c "[" then
            match skip_ws r with
            | String "]" r' => Some (JArr [], r')
            | r' => parse_items f r' []
            end
          else if Ascii.eqb c "{" then
            match skip_ws r with
            | String "}" r' => Some (JObj [], r')
            | r' => parse_members f r' []
            end
          else if Ascii.eqb c "n" then
            option_map (pair JNull) (after "ull" r)
          else if Ascii.eqb c "t" then
            option_map (pair (JBool true)) (after "rue" r)
          else if Ascii.eqb c "f" then
            option_map (pair (JBool false)) (after "alse" r)
          else if Ascii.eqb c "N" then
            option_map (pair (JFloat "NaN")) (after "aN" r)
          else if Ascii.eqb c "I" then
            option_map (pair (JFloat "Infinity")) (after "nfinity" r)
          else
            match after "-Infinity" s with
            | Some r' => Some (JFloat "-Infinity", r')
            | None => number s
            end
      end
  end

(** The items of an array after its opening bracket; [acc] holds the items
    read so far, last first. *)
with parse_items (fuel : nat) (s : string) (acc : list value)
  : option (value * string) :=
  match fuel with
  | O => None
  | S f =>
      match parse_value f s with
      | None => None
      | Some (v, r) =>
          match skip_ws r with
          | String "," r' => parse_items f (skip_ws r') (v :: acc)
          | String "]" r' => Some (JArr (rev (v :: acc)), r')
          | _ => None
          end
      end
  end

(** The members of an object after its opening brace. *)
with parse_members (fuel : nat) (s : string) (acc : list (string * value))
  : option (value * string) :=
  match fuel with
  | O => None
  | S f =>
      match s with
      | String c r =>
          if Ascii.eqb c quote then
            match string_body r with
            | None => None
            | Some (k, r1) =>
                match skip_ws r1 with
                | String ":" r2 =>
                    match parse_value f (skip_ws r2) with
                    | None => None
                    | Some (v, r3) =>
                        match skip_ws r3 with
                        | String "," r4 =>
                            parse_members f (skip_ws r4) (PyDict.set k v acc)
                        | String "}" r4 =>
                            Some (JObj (PyDict.set k v acc), r4)
                        | _ => None
                        end
                    end
                | _ => None
                end
            end
          else None
      | EmptyString => None
      end
  end.

(** [json.loads(s)]: one value with white space around it and nothing
    else. *)
Definition loads (s : string) : option value :=
  match parse_value (2 * String.length s + 2) (skip_ws s) with
  | Some (v, r) =>
      match skip_ws r with
      | EmptyString => Some v
      | String _ _ => None
      end
  | None => None
  end.

(** [s] with every apostrophe turned into a double quote, so that the JSON
    texts below read as they are. *)
Definition dq (s : string) : string :=
  PyStr.replace_char "'" (String quote EmptyString) s.

End Json.


(** ** Platforms to run the client on *)

(** A platform on which every call of [subprocess.run] has the result [r],
    with the decoder above. *)
Definition platform_of (r : run_result) : Platform :=
  mk_Platform (fun _ => r) Json.loads.

(** A platform on which the tool is missing, and on which every call
    that names a working directory is refused. *)
Definition platform_without_tool : Platform :=
  mk_Platform
    (fun req =>
       match run_cwd req with
       | Some _ => RunRaised PermissionError
       | None => RunRaised FileNotFoundError
       end)
    Json.loads.

(** The tool exits with [code] after writing [out] and [err]. *)
Definition tool_prints (code : Z) (out err : string) : Platform :=
  platform_of (Completed (mk_CompletedProcess code out err)).

(** ** The contract of the executor, in the words of the specification

    These definitions follow the behaviour steps 2 to 4 of the executor and
    the success mappings of the operations as the specification words them;
    the properties below compare the client with them. *)

Section Contract.

Context {pf : Platform}.

(** The message of a text that parses as JSON to a mapping containing the
    key ["error"]; [None] for every other text. *)
Definition embedded_error (s : string) : option value :=
  match json_loads s with
  | Some (JObj d) => PyDict.get "error" d
  | _ => None
  end.

(** The same for standard output, which is looked at only when it is not
    empty. *)
Definition stdout_error (out : string) : option value :=
  if PyStr.truthy out then embedded_error out else None.

(** Standard error if not empty, else standard output if not empty, else
    the synthesized text. *)
Definition failure_text (code : Z) (out err : string) : string :=
  if PyStr.truthy err then err
  else if PyStr.truthy out then out
  else ("Command failed with exit code " ++ PyStr.of_int code)%string.

(** The embedded message of that text when it has one, else the text with
    the surrounding white space trimmed. *)
Definition failure_message (text : string) : value :=
  match embedded_error text with
  | Some msg => msg
  | None => JStr (PyStr.strip text)
  end.

(** Steps 2, 3 and 4 on a finished process. *)
Definition interpret (p : CompletedProcess) : outcome string :=
  match stdout_error (stdout p) with
  | Some msg => Raise (PadzError msg)
  | None =>
      if returncode p =? 0
      then Ret (stdout p)
      else Raise (PadzError
             (failure_message
                (failure_text (returncode p) (stdout p) (stderr p))))
  end.

End Contract.

(** A JSON object or array. *)
Definition is_container (v : value) : bool :=
  match v with
  | JObj _ | JArr _ => true
  | _ => false
  end.

(** The success mapping of each operation, applied to the decoded output. *)
Definition success_mapping (c : call) (v : value) : outcome answer :=
  match c with
  | Create _ => Out.bind (Scratch.from_dict v) (fun s => Ret (AScratch s))
  | List _ _ | Search _ _ _ =>
      Out.bind (py_iter v) (fun items =>
      Out.bind (Out.map_list Scratch.from_dict items) (fun l =>
      Ret (AScratches l)))
  | View _ _ _ | Peek _ _ _ _ =>
      Out.bind (subscript v "content") (fun x => Ret (AValue x))
  | Path _ _ => Out.bind (subscript v "path") (fun x => Ret (AValue x))
  | Nuke _ _ =>
      Out.bind (subscript v "deleted_count") (fun n =>
      Out.bind (subscript v "scope") (fun s =>
      Out.bind (py_get v "project_name") (fun p =>
      Ret (ANuke (mk_NukeResult n s p)))))
  | Open _ _ | Delete _ _ | Cleanup _ => Ret ANone
  end.

(** What an operation makes of the text [_exec] returned: the operations
    with a result decode it and apply their mapping, the others ignore
    it. *)
Definition decode_output {pf : Platform} (c : call) (output : string)
  : outcome answer :=
  if parses_output c
  then match json_loads output with
       | Some v => success_mapping c v
       | None => Raise JSONDecodeError
       end
  else Ret ANone.

(** The first member an operation reads from the decoded object; the
    operations returning a list read none. *)
Definition first_field (c : call) : option string :=
  match c with
  | Create _ => Some "id"%string
  | View _ _ _ | Peek _ _ _ _ => Some "content"%string
  | Path _ _ => Some "path"%string
  | Nuke _ _ => Some "deleted_count"%string
  | _ => None
  end.

(** The operations stopped by a check of the client before the tool is
    called: [create] on empty content and [nuke] without [yes]. *)
Definition gated (c : call) : bool :=
  match c with
  | Create content => negb (PyStr.truthy content)
  | Nuke _ yes => negb yes
  | _ => false
  end.

(** [a] immediately followed by [b] in an argument vector. *)
Fixpoint has_adjacent (a b : string) (l : list string) : bool :=
  match l with
  | x :: ((y :: _) as r) =>
      (String.eqb x a && String.eqb y b) || has_adjacent a b r
  | _ => false
  end.

(** The flag selecting JSON output. *)
Definition has_format_json (argv : list string) : bool :=
  has_adjacent "--format" "json" argv.

(** The call [req] of [subprocess.run] raises nothing but what [_exec]
    has a clause for. *)
Definition raises_handled_at {pf : Platform} (req : run_request) : Prop :=
  forall e,
    subprocess_run req = RunRaised e ->
    isinstance e FileNotFoundError_t = true
    \/ isinstance e SubprocessError_t = true.

(** The exceptions of the success path that no clause of the client
    handles. *)
Definition decoding_error (e : exn) : bool :=
  match e with
  | JSONDecodeError | KeyError _ | TypeError | AttributeError
  | ValueError _ => true
  | _ => false
  end.

(** ** Vocabulary of the further properties *)

(** The [all] parameter of a call; [false] where the operation has none. *)
Definition all_of (c : call) : bool :=
  match c with
  | List a _ | View _ a _ | Open _ a | Peek _ a _ _ | Delete _ a
  | Path _ a | Search _ a _ | Nuke a _ => a
  | Create _ | Cleanup _ => false
  end.

(** The [global_] parameter of a call; [false] where the operation has
    none. *)
Definition global_of (c : call) : bool :=
  match c with
  | List _ g | View _ _ g | Peek _ _ g _ | Search _ _ g => g
  | _ => false
  end.

(** The text a call passes on as an argument of its own: the term of
    [search]. *)
Definition term_of (c : call) : option string :=
  match c with
  | Search term _ _ => Some term
  | _ => None
  end.

(** A request with its working directory replaced. *)
Definition with_run_cwd (d : option string) (req : run_request)
  : run_request :=
  mk_run_request (run_cmd req) d (run_input req).

(** The first character is white space. *)
Definition starts_with_space (s : string) : bool :=
  match s with
  | String c _ => PyStr.isspace c
  | EmptyString => false
  end.

(** The last character is white space. *)
Fixpoint ends_with_space (s : string) : bool :=
  match s with
  | EmptyString => false
  | String c EmptyString => PyStr.isspace c
  | String _ r => ends_with_space r
  end.

(** The four members [Scratch.from_dict] reads. *)
Definition scratch_keys : list string :=
  ["id"; "project"; "title"; "created_at"]%string.

(** The first of the four members that a dictionary lacks. *)
Definition first_missing (d : list (string * value)) : option string :=
  find (fun k => negb (PyDict.contains k d)) scratch_keys.

(** The operations that return a list of scratches. *)
Definition is_listing (c : call) : bool :=
  match c with
  | List _ _ | Search _ _ _ => true
  | _ => false
  end.

(** * Properties *)

(** ** The Python primitives on sample inputs *)

Example of_int_neg : PyStr.of_int (-9) = "-9".
Proof. reflexivity. Qed.

Example of_int_zero : PyStr.of_int 0 = "0".
Proof. reflexivity. Qed.

Example strip_both : PyStr.strip "  boom
" = "boom".
Proof. reflexivity. Qed.

Example strip_inner : PyStr.strip " a b " = "a b".
Proof. reflexivity. Qed.

Example replace_z :
  PyStr.replace_char "Z" "+00:00" "2024-01-01T00:00:00Z"
  = "2024-01-01T00:00:00+00:00".
Proof. reflexivity. Qed.

Example fromisoformat_utc :
  DateTime.fromisoformat "2024-01-01T00:00:00+00:00"
  = Some (DateTime.utc_midnight 2024 1 1).
Proof. reflexivity. Qed.

Example fromisoformat_offset :
  DateTime.fromisoformat "2024-02-29 12:30:05.250-05:00"
  = Some (mk_datetime 2024 2 29 12 30 5 250000 (Some (-18000000000))).
Proof. reflexivity. Qed.

Example fromisoformat_bad_day :
  DateTime.fromisoformat "2023-02-29" = None.
Proof. reflexivity. Qed.

Example fromisoformat_zulu :
  DateTime.fromisoformat "2024-01-01T00:00:00Z"
  = Some (DateTime.utc_midnight 2024 1 1).
Proof. reflexivity. Qed.

Example fromisoformat_basic_format :
  DateTime.fromisoformat "20240101T101010"
  = Some (mk_datetime 2024 1 1 10 10 10 0 None).
Proof. reflexivity. Qed.

Example fromisoformat_week_date :
  DateTime.fromisoformat "2024-W01-1"
  = Some (mk_datetime 2024 1 1 0 0 0 0 None).
Proof. reflexivity. Qed.

Example fromisoformat_long_fraction :
  DateTime.fromisoformat "2024-01-01T10:00:00.123456789+05:30"
  = Some (mk_datetime 2024 1 1 10 0 0 123456 (Some 19800000000)).
Proof. reflexivity. Qed.

Example fromisoformat_week_and_comma :
  DateTime.fromisoformat "2020-W53-7T10:10,5-0030"
  = Some (mk_datetime 2021 1 3 10 10 0 500000 (Some (-1800000000))).
Proof. reflexivity. Qed.

Example fromisoformat_no_time : DateTime.fromisoformat "2024-01-01T" = None.
Proof. reflexivity. Qed.

Example fromisoformat_refuses_text :
  py_fromisoformat "yesterday"
  = Raise (ValueError "Invalid isoformat string: 'yesterday'").
Proof. reflexivity. Qed.

Example fromisoformat_refuses_month :
  py_fromisoformat "2024-13-01" = Raise (ValueError "month must be in 1..12").
Proof. reflexivity. Qed.

Example fromisoformat_refuses_offset :
  py_fromisoformat "2024-01-01T00:00:00+24:00"
  = Raise (ValueError
      "offset must be a timedelta strictly between -timedelta(hours=24) and timedelta(hours=24), not datetime.timedelta(days=1).").
Proof. reflexivity. Qed.

Example repr_backslash : PyStr.repr "a\b" = "'a\\b'".
Proof. reflexivity. Qed.

Example instant_2024 :
  DateTime.instant (DateTime.utc_midnight 2024 1 1) = Some (1704067200 * 1000000).
Proof. reflexivity. Qed.

Example loads_error_object :
  Json.loads (Json.dq "{'error': 'boom'}")
  = Some (JObj [("error", JStr "boom")]%string).
Proof. reflexivity. Qed.

Example loads_nested :
  Json.loads (Json.dq " {'a': [1, -2, 2.5e3, true, null], 'a': 0, 'c': {}} ")
  = Some (JObj [("a", JInt 0); ("c", JObj [])]%string).
Proof. reflexivity. Qed.

Example loads_array_of_floats :
  Json.loads "[1.5, -0.25e-2]" = Some (JArr [JFloat "1.5"; JFloat "-0.25e-2"]).
Proof. reflexivity. Qed.

Example loads_plain_text : Json.loads "Command failed with exit code 3" = None.
Proof. reflexivity. Qed.

Example loads_empty : Json.loads EmptyString = None.
Proof. reflexivity. Qed.

Example loads_trailing_comma : Json.loads "[1,]" = None.
Proof. reflexivity. Qed.

Example loads_extra_data : Json.loads "{} {}" = None.
Proof. reflexivity. Qed.

Lemma dict_get_set (k : string) (v : value) (d : list (string * value)) :
  PyDict.get k (PyDict.set k v d) = Some v.
Proof.
  induction d as [| [k' v'] r IH]; cbn [PyDict.set PyDict.get].
  - rewrite String.eqb_refl. reflexivity.
  - destruct (String.eqb k k') eqn:Hk; cbn [PyDict.get]; rewrite ?Hk.
    + rewrite String.eqb_refl. reflexivity.
    + exact IH.
Qed.

Lemma issubclass_refl (c : exc_class) : issubclass c c = true.
Proof. destruct c; reflexivity. Qed.

(** [JSONDecodeError] is a [ValueError], as in Python; [PadzError] is
    neither below nor above any class but [Exception]. *)
Example decode_error_is_value_error :
  isinstance JSONDecodeError ValueError_t = true
  /\ isinstance (ValueError "x") JSONDecodeError_t = false
  /\ isinstance (PadzError JNull) Exception_t = true
  /\ isinstance FileNotFoundError OSError_t = true.
Proof. repeat split. Qed.

(** ** The executor *)

Section Executor.

Context {pf : Platform}.

(** The request [_exec] sends for the arguments [args]. *)
Local Notation request self args input_text :=
  (mk_run_request ("padz" :: args) (cwd self) input_text).

Lemma raise_embedded_error_eq (data : value) (tr : trace) :
  PadzClient.raise_embedded_error data tr
  = match data with
    | JObj d =>
        match PyDict.get "error" d with
        | Some msg => (Raise (PadzError msg), tr)
        | None => (Ret tt, tr)
        end
    | _ => (Ret tt, tr)
    end.
Proof.
  unfold PadzClient.raise_embedded_error.
  destruct data as [| b | n | l | s | items | d]; try reflexivity.
  cbn [is_dict in_dict andb]. unfold PyDict.contains.
  unfold Mon.bind, Mon.lift, subscript.
  destruct (PyDict.get "error" d); reflexivity.
Qed.

(** The guarded decoding both error paths share: it raises the embedded
    message when there is one and does nothing otherwise; a text that is
    not JSON is passed over. *)
Lemma check_text_eq (s : string) (tr : trace) :
  Mon.try_except
    (Mon.bind (Mon.loads s)
       (fun data => PadzClient.raise_embedded_error data))
    [(JSONDecodeError_t, fun _ => Mon.ret tt)] tr
  = match embedded_error s with
    | Some msg => (Raise (PadzError msg), tr)
    | None => (Ret tt, tr)
    end.
Proof.
  unfold Mon.try_except, Mon.bind, Mon.loads, embedded_error.
  destruct (json_loads s) as [data |]; cbn.
  - rewrite raise_embedded_error_eq.
    destruct data as [| b | n | l | s' | items | d]; try reflexivity.
    destruct (PyDict.get "error" d); reflexivity.
  - reflexivity.
Qed.

(** On a process that finished, [_exec] makes one call and answers as the
    steps 2 to 4 of the contract say. *)
Lemma exec_completed (self : PadzClient) (args : list string)
    (input_text : option string) (tr : trace) (p : CompletedProcess) :
  subprocess_run (request self args input_text) = Completed p ->
  PadzClient._exec self args input_text tr
  = (interpret p, tr ++ [request self args input_text]).
Proof.
  intros Hrun. unfold PadzClient._exec, interpret, stdout_error.
  unfold Mon.try_except at 1. unfold Mon.bind at 1. unfold Mon.run.
  rewrite Hrun. unfold Mon.bind at 1.
  assert (Htext :
    PyStr.or_ (PyStr.or_ (stderr p) (stdout p))
      ("Command failed with exit code " ++ PyStr.of_int (returncode p))%string
    = failure_text (returncode p) (stdout p) (stderr p)).
  { unfold failure_text, PyStr.or_.
    destruct (PyStr.truthy (stderr p)) eqn:Herr; rewrite ?Herr;
      [reflexivity |].
    destruct (PyStr.truthy (stdout p)) eqn:Hout; rewrite ?Hout; reflexivity. }
  rewrite Htext. unfold failure_message.
  destruct (PyStr.truthy (stdout p)).
  - rewrite check_text_eq.
    destruct (embedded_error (stdout p)) as [msg |]; [reflexivity |].
    destruct (returncode p =? 0); cbn [negb]; [reflexivity |].
    unfold Mon.bind at 1. rewrite check_text_eq.
    destruct (embedded_error _); reflexivity.
  - unfold Mon.ret at 1.
    destruct (returncode p =? 0); cbn [negb]; [reflexivity |].
    unfold Mon.bind at 1. rewrite check_text_eq.
    destruct (embedded_error _); reflexivity.
Qed.

(** When [subprocess.run] raises, [_exec] still has made its one call, and
    the two [except] clauses decide what the caller sees. *)
Lemma exec_run_raised (self : PadzClient) (args : list string)
    (input_text : option string) (tr : trace) (e : exn) :
  subprocess_run (request self args input_text) = RunRaised e ->
  PadzClient._exec self args input_text tr
  = (Raise
       (if isinstance e FileNotFoundError_t
        then PadzError (JStr
          "padz command not found. Please ensure padz is installed and in PATH")
        else if isinstance e SubprocessError_t
        then PadzError (JStr ("Failed to execute command: " ++ str_exn e)%string)
        else e),
     tr ++ [request self args input_text]).
Proof.
  intros Hrun. unfold PadzClient._exec.
  unfold Mon.try_except at 1. unfold Mon.bind at 1. unfold Mon.run.
  rewrite Hrun. cbn [Mon.dispatch].
  destruct (isinstance e FileNotFoundError_t); [reflexivity |].
  destruct (isinstance e SubprocessError_t); reflexivity.
Qed.

(** [_exec] calls [subprocess.run] exactly once, whatever happens. *)
Lemma exec_calls (self : PadzClient) (args : list string)
    (input_text : option string) (tr : trace) :
  snd (PadzClient._exec self args input_text tr)
  = tr ++ [request self args input_text].
Proof.
  destruct (subprocess_run (request self args input_text)) as [p | e] eqn:Hrun.
  - rewrite (exec_completed _ _ _ _ _ Hrun). reflexivity.
  - rewrite (exec_run_raised _ _ _ _ _ Hrun). reflexivity.
Qed.

(** The second [except] clause: a [SubprocessError] becomes a [PadzError]
    that quotes it. *)
Example exec_subprocess_error :
  PadzClient._exec (pf := platform_of (RunRaised (SubprocessError "broken pipe")))
    (mk_PadzClient None) ["ls"]%string None []
  = (Raise (PadzError (JStr "Failed to execute command: broken pipe")),
     [mk_run_request ["padz"; "ls"]%string None None]).
Proof. reflexivity. Qed.

(** No clause catches the other exceptions of [subprocess.run]: a
    [PermissionError] reaches the caller as it is. *)
Example exec_permission_error :
  PadzClient._exec (pf := platform_of (RunRaised PermissionError))
    (mk_PadzClient None) ["ls"]%string None []
  = (Raise PermissionError, [mk_run_request ["padz"; "ls"]%string None None]).
Proof. reflexivity. Qed.

(** With nothing on either stream the message names the exit code. *)
Example exec_silent_failure :
  PadzClient._exec (pf := tool_prints (-9) EmptyString EmptyString)
    (mk_PadzClient None) ["cleanup"]%string None []
  = (Raise (PadzError (JStr "Command failed with exit code -9")),
     [mk_run_request ["padz"; "cleanup"]%string None None]).
Proof. reflexivity. Qed.

(** An error object on standard error is preferred to its raw text. *)
Example exec_error_object_on_stderr :
  fst (PadzClient._exec
         (pf := tool_prints 1 EmptyString (Json.dq "{'error': 'locked'}"))
         (mk_PadzClient None) ["nuke"]%string None [])
  = Raise (PadzError (JStr "locked")).
Proof. reflexivity. Qed.

End Executor.

(** ** The operations *)

Section Operations.

Context {pf : Platform}.

Local Notation request self args input_text :=
  (mk_run_request ("padz" :: args) (cwd self) input_text).

Lemma has_format_json_append_if (c : bool) (a : string) (l : list string) :
  has_format_json l = true -> has_format_json (append_if c a l) = true.
Proof.
  unfold append_if, has_format_json. destruct c; [| trivial].
  induction l as [| x [| y r] IH]; cbn; intros Hl; try discriminate.
  apply Bool.orb_true_iff in Hl. apply Bool.orb_true_iff.
  destruct Hl as [Hxy | Hr]; [left; exact Hxy | right].
  apply IH in Hr. exact Hr.
Qed.

Lemma has_format_json_cons (x : string) (l : list string) :
  has_format_json l = true -> has_format_json (x :: l) = true.
Proof.
  unfold has_format_json. destruct l as [| y r]; cbn; [discriminate |].
  intros Hl. apply Bool.orb_true_iff. right. exact Hl.
Qed.

Lemma in_append_if (x : string) (c : bool) (a : string) (l : list string) :
  In x l -> In x (append_if c a l).
Proof.
  unfold append_if. destruct c; [| trivial].
  intros Hin. apply in_or_app. left. exact Hin.
Qed.

(** Splits on the innermost outcome a goal matches on. *)
Ltac case_outcome :=
  match goal with
  | |- context [match ?x with Ret _ => _ | Raise _ => _ end] =>
      lazymatch x with
      | context [match _ with Ret _ => _ | Raise _ => _ end] => fail
      | _ => destruct x
      end
  end.

(** An operation that passes its own check calls [_exec] once, with the
    JSON flag among the arguments, and hands the returned text to its
    decoding step; only [create] gives an input text, and then the flag is
    the whole argument list. *)
Lemma perform_factors (self : PadzClient) (c : call) (tr : trace) :
  gated c = false ->
  exists args input_text,
    perform self c tr
    = (Out.bind (fst (PadzClient._exec self args input_text tr))
         (decode_output c),
       tr ++ [request self args input_text])
    /\ has_format_json ("padz" :: args) = true
    /\ match c with
       | Create content =>
           input_text = Some content /\ args = ["--format"; "json"]
       | Nuke _ _ => input_text = None /\ In "--yes" args
       | _ => input_text = None
       end.
Proof.
  intros Hgate.
  destruct c as [content | a g | i a g | i a | i a g n | i a | i a | t a g
                | d | a y];
    cbn [gated] in Hgate;
    unfold perform, map_M,
      PadzClient.create, PadzClient.list, PadzClient.view, PadzClient.open,
      PadzClient.peek, PadzClient.delete, PadzClient.path, PadzClient.search,
      PadzClient.cleanup, PadzClient.nuke;
    rewrite ?Hgate; cbv zeta; unfold Mon.bind;
    match goal with
    | |- context [PadzClient._exec ?s ?args ?inp ?t] =>
        exists args, inp;
        pose proof (exec_calls s args inp t) as Hcalls;
        destruct (PadzClient._exec s args inp t) as [o tr'] eqn:Hexec
    end;
    cbn [fst snd] in *; subst tr';
    (split; [| split]).
  all: try (apply has_format_json_cons;
            repeat apply has_format_json_append_if;
            repeat (reflexivity || apply has_format_json_cons)).
  all: try (destruct o as [output | e];
            cbn [Out.bind]; [| reflexivity];
            unfold decode_output, Mon.loads, Mon.ret, Mon.raise, Mon.lift;
            cbn [parses_output];
            try destruct (json_loads output) as [v |];
            cbn [success_mapping]; unfold PadzClient.scratches, Out.bind;
            repeat case_outcome; reflexivity).
  all: try (split; [reflexivity |]).
  all: try reflexivity.
  all: try (apply in_append_if; cbn; tauto).
Qed.

(** An operation stopped by its own check raises without calling the
    tool. *)
Lemma perform_gated (self : PadzClient) (c : call) (tr : trace) :
  gated c = true ->
  perform self c tr
  = (Raise
       match c with
       | Create _ => ValueError "Content cannot be empty"
       | _ => PadzError (JStr
                "Must set yes=True for non-interactive nuke operation")
       end, tr).
Proof.
  destruct c; cbn [gated]; intros Hgate; try discriminate;
    unfold perform, map_M, PadzClient.create, PadzClient.nuke, Mon.bind;
    rewrite Hgate; reflexivity.
Qed.

(** The calls an operation adds to the trace: none when it is stopped by
    its check, one otherwise. *)
Lemma perform_calls (self : PadzClient) (c : call) (tr : trace)
    (req : run_request) :
  snd (perform self c tr) = tr ++ [req] ->
  gated c = false
  /\ exists args input_text,
       req = request self args input_text
       /\ fst (perform self c tr)
          = Out.bind (fst (PadzClient._exec self args input_text tr))
              (decode_output c).
Proof.
  intros Hcalls. destruct (gated c) eqn:Hgate.
  - rewrite (perform_gated self c tr Hgate) in Hcalls. cbn [snd] in Hcalls.
    apply (f_equal (@List.length run_request)) in Hcalls.
    rewrite length_app in Hcalls. cbn in Hcalls. lia.
  - split; [reflexivity |].
    destruct (perform_factors self c tr Hgate)
      as (args & input_text & Hperform & _).
    exists args, input_text. rewrite Hperform in Hcalls |- *.
    cbn [fst snd] in *. apply app_inv_head in Hcalls.
    split; [congruence | reflexivity].
Qed.

(** After an exit code of zero without an embedded error, the operation
    goes on with the text the tool wrote. *)
Lemma perform_after_success (self : PadzClient) (c : call) (tr : trace)
    (req : run_request) (out err : string) :
  snd (perform self c tr) = tr ++ [req] ->
  subprocess_run req = Completed (mk_CompletedProcess 0 out err) ->
  stdout_error out = None ->
  fst (perform self c tr) = decode_output c out.
Proof.
  intros Hcalls Hrun Hclean.
  destruct (perform_calls self c tr req Hcalls)
    as (_ & args & input_text & -> & ->).
  rewrite (exec_completed self args input_text tr _ Hrun).
  unfold interpret. cbn [fst stdout returncode]. rewrite Hclean.
  reflexivity.
Qed.

(** The exceptions of the mappings are those of indexing, of method
    lookup and of the timestamp parser. *)
Lemma subscript_raises (v : value) (k : string) (e : exn) :
  subscript v k = Raise e -> decoding_error e = true.
Proof.
  unfold subscript. destruct v; try (intros [= <-]; reflexivity).
  destruct (PyDict.get k members); intros [= <-]; reflexivity.
Qed.

Lemma py_iter_raises (v : value) (e : exn) :
  py_iter v = Raise e -> decoding_error e = true.
Proof.
  destruct v; cbn [py_iter]; try discriminate; intros [= <-]; reflexivity.
Qed.

Lemma from_dict_raises (v : value) (e : exn) :
  Scratch.from_dict v = Raise e -> decoding_error e = true.
Proof.
  unfold Scratch.from_dict.
  destruct (subscript v "id") eqn:H1; cbn [Out.bind];
    [| intros [= <-]; exact (subscript_raises _ _ _ H1)].
  destruct (subscript v "project") eqn:H2; cbn [Out.bind];
    [| intros [= <-]; exact (subscript_raises _ _ _ H2)].
  destruct (subscript v "title") eqn:H3; cbn [Out.bind];
    [| intros [= <-]; exact (subscript_raises _ _ _ H3)].
  destruct (subscript v "created_at") as [raw |] eqn:H4; cbn [Out.bind];
    [| intros [= <-]; exact (subscript_raises _ _ _ H4)].
  unfold py_replace, py_fromisoformat.
  destruct raw; cbn [Out.bind]; try (intros [= <-]; reflexivity).
  destruct (DateTime.parse _); cbn [Out.bind];
    [discriminate | intros [= <-]; reflexivity | intros [= <-]; reflexivity].
Qed.

Lemma map_from_dict_raises (items : list value) (e : exn) :
  Out.map_list Scratch.from_dict items = Raise e -> decoding_error e = true.
Proof.
  induction items as [| v r IH]; cbn [Out.map_list]; [discriminate |].
  destruct (Scratch.from_dict v) eqn:Hv; cbn [Out.bind];
    [| intros [= <-]; exact (from_dict_raises _ _ Hv)].
  destruct (Out.map_list Scratch.from_dict r); cbn [Out.bind];
    [discriminate |].
  intros [= <-]. apply IH. reflexivity.
Qed.

Lemma success_mapping_raises (c : call) (v : value) (e : exn) :
  success_mapping c v = Raise e -> decoding_error e = true.
Proof.
  destruct c; cbn [success_mapping].
  - destruct (Scratch.from_dict v) eqn:Hv; cbn [Out.bind]; [discriminate |].
    intros [= <-]. exact (from_dict_raises _ _ Hv).
  - destruct (py_iter v) as [items |] eqn:Hv; cbn [Out.bind].
    + destruct (Out.map_list Scratch.from_dict items) eqn:Hl; cbn [Out.bind];
        [discriminate |].
      intros [= <-]. exact (map_from_dict_raises _ _ Hl).
    + intros [= <-]. exact (py_iter_raises _ _ Hv).
  - destruct (subscript v "content") eqn:Hv; cbn [Out.bind]; [discriminate |].
    intros [= <-]. exact (subscript_raises _ _ _ Hv).
  - discriminate.
  - destruct (subscript v "content") eqn:Hv; cbn [Out.bind]; [discriminate |].
    intros [= <-]. exact (subscript_raises _ _ _ Hv).
  - discriminate.
  - destruct (subscript v "path") eqn:Hv; cbn [Out.bind]; [discriminate |].
    intros [= <-]. exact (subscript_raises _ _ _ Hv).
  - destruct (py_iter v) as [items |] eqn:Hv; cbn [Out.bind].
    + destruct (Out.map_list Scratch.from_dict items) eqn:Hl; cbn [Out.bind];
        [discriminate |].
      intros [= <-]. exact (map_from_dict_raises _ _ Hl).
    + intros [= <-]. exact (py_iter_raises _ _ Hv).
  - discriminate.
  - destruct (subscript v "deleted_count") eqn:H1; cbn [Out.bind];
      [| intros [= <-]; exact (subscript_raises _ _ _ H1)].
    destruct (subscript v "scope") eqn:H2; cbn [Out.bind];
      [| intros [= <-]; exact (subscript_raises _ _ _ H2)].
    unfold py_get. destruct v; cbn [Out.bind];
      try (intros [= <-]; reflexivity).
    destruct (PyDict.get "project_name" members); discriminate.
Qed.

Lemma decode_output_raises (c : call) (output : string) (e : exn) :
  decode_output c output = Raise e -> decoding_error e = true.
Proof.
  unfold decode_output. destruct (parses_output c); [| discriminate].
  destruct (json_loads output) as [v |].
  - apply success_mapping_raises.
  - intros [= <-]. reflexivity.
Qed.

(** No exception of the success path is a [PadzError]. *)
Lemma decoding_error_not_domain (e : exn) :
  decoding_error e = true -> isinstance e PadzError_t = false.
Proof.
  destruct e; cbn; congruence.
Qed.

End Operations.

(** ** The claims of the specification *)

Section Claims.

Context {pf : Platform}.

Local Notation request self args input_text :=
  (mk_run_request ("padz" :: args) (cwd self) input_text).

(** C1.  When standard output is not empty and decodes to a mapping with
    the key ["error"], [_exec] raises [PadzError] with the value of that
    key, for every exit code: the check comes before the exit code is
    looked at, so it also fails when the code is 0. *)
Theorem exec_embedded_error_first
    (self : PadzClient) (args : list string) (input_text : option string)
    (tr : trace) (code : Z) (out err : string)
    (d : list (string * value)) (msg : value) :
  subprocess_run (request self args input_text)
  = Completed (mk_CompletedProcess code out err) ->
  PyStr.truthy out = true ->
  json_loads out = Some (JObj d) ->
  PyDict.get "error" d = Some msg ->
  PadzClient._exec self args input_text tr
  = (Raise (PadzError msg), tr ++ [request self args input_text]).
Proof.
  intros Hrun Hout Hjson Hkey.
  rewrite (exec_completed self args input_text tr _ Hrun).
  unfold interpret, stdout_error, embedded_error. cbn [stdout].
  rewrite Hout, Hjson, Hkey. reflexivity.
Qed.

(** C2.  With a non-zero exit code and no embedded error on standard
    output, [_exec] raises [PadzError]; the message comes from standard
    error if not empty, else standard output if not empty, else the
    synthesized text, and it is the embedded ["error"] of that text when it
    decodes to a mapping with one, else the text trimmed.  With standard
    error not empty the text is standard error. *)
Theorem exec_nonzero_exit_message
    (self : PadzClient) (args : list string) (input_text : option string)
    (tr : trace) (code : Z) (out err : string) :
  subprocess_run (request self args input_text)
  = Completed (mk_CompletedProcess code out err) ->
  code <> 0 ->
  stdout_error out = None ->
  PadzClient._exec self args input_text tr
  = (Raise (PadzError (failure_message (failure_text code out err))),
     tr ++ [request self args input_text])
  /\ (PyStr.truthy err = true -> failure_text code out err = err)
  /\ (PyStr.truthy err = false -> PyStr.truthy out = true ->
      failure_text code out err = out)
  /\ (PyStr.truthy err = false -> PyStr.truthy out = false ->
      failure_text code out err
      = ("Command failed with exit code " ++ PyStr.of_int code)%string).
Proof.
  intros Hrun Hcode Hclean. split.
  - rewrite (exec_completed self args input_text tr _ Hrun).
    unfold interpret. cbn [stdout stderr returncode]. rewrite Hclean.
    apply Z.eqb_neq in Hcode. rewrite Hcode. reflexivity.
  - unfold failure_text. repeat split.
    + intros ->. reflexivity.
    + intros -> ->. reflexivity.
    + intros -> ->. reflexivity.
Qed.

(** C3, as the code has it.  With exit code 0 and no embedded error on
    standard output, [_exec] returns standard output as it is.  The
    operation then goes on with that text: [open], [delete] and [cleanup]
    succeed; the others decode it and apply their mapping to the decoded
    value unchanged, so they succeed exactly when the mapping does. *)
Theorem exec_success_verbatim :
  (forall (self : PadzClient) (args : list string)
          (input_text : option string) (tr : trace) (out err : string),
      subprocess_run (request self args input_text)
      = Completed (mk_CompletedProcess 0 out err) ->
      stdout_error out = None ->
      PadzClient._exec self args input_text tr
      = (Ret out, tr ++ [request self args input_text]))
  /\ (forall (self : PadzClient) (c : call) (tr : trace) (req : run_request)
             (out err : string) (v : value),
      snd (perform self c tr) = tr ++ [req] ->
      subprocess_run req = Completed (mk_CompletedProcess 0 out err) ->
      json_loads out = Some v ->
      in_dict "error" v = false ->
      fst (perform self c tr)
      = if parses_output c then success_mapping c v else Ret ANone).
Proof.
  split.
  - intros self args input_text tr out err Hrun Hclean.
    rewrite (exec_completed self args input_text tr _ Hrun).
    unfold interpret. cbn [stdout returncode]. rewrite Hclean. reflexivity.
  - intros self c tr req out err v Hcalls Hrun Hjson Hkey.
    assert (Hclean : stdout_error out = None).
    { unfold stdout_error, embedded_error. rewrite Hjson.
      destruct (PyStr.truthy out); [| reflexivity].
      destruct v; try reflexivity.
      cbn [in_dict] in Hkey. unfold PyDict.contains in Hkey.
      destruct (PyDict.get "error" members); [discriminate | reflexivity]. }
    rewrite (perform_after_success self c tr req out err Hcalls Hrun Hclean).
    unfold decode_output. rewrite Hjson. reflexivity.
Qed.

(** C4.  [nuke] without [yes] raises [PadzError] and the trace of calls is
    unchanged; with [yes] it makes one call whose arguments contain
    ["--yes"].  Both hold for every value of [all]. *)
Theorem nuke_confirmation_gate
    (self : PadzClient) (all : bool) (tr : trace) :
  PadzClient.nuke self all false tr
  = (Raise (PadzError (JStr
       "Must set yes=True for non-interactive nuke operation")), tr)
  /\ exists req,
       snd (PadzClient.nuke self all true tr) = tr ++ [req]
       /\ In "--yes"%string (run_cmd req).
Proof.
  split; [reflexivity |].
  destruct (perform_factors self (Nuke all true) tr eq_refl)
    as (args & input_text & Hperform & _ & _ & Hyes).
  exists (request self args input_text). split.
  - apply (f_equal snd) in Hperform. cbn [snd] in Hperform.
    rewrite <- Hperform. unfold perform, map_M, Mon.bind.
    destruct (PadzClient.nuke self all true tr) as [[r | e] tr']; reflexivity.
  - cbn [run_cmd]. right. exact Hyes.
Qed.

(** C5, as the code has it.  When [subprocess.run] raises
    [FileNotFoundError], [_exec] raises [PadzError] itself, the class of
    all its failures, with one fixed message; the module declares no class
    below [PadzError]. *)
Theorem exec_tool_not_found
    (self : PadzClient) (args : list string) (input_text : option string)
    (tr : trace) (e : exn) :
  subprocess_run (request self args input_text) = RunRaised e ->
  isinstance e FileNotFoundError_t = true ->
  PadzClient._exec self args input_text tr
  = (Raise (PadzError (JStr
       "padz command not found. Please ensure padz is installed and in PATH")),
     tr ++ [request self args input_text])
  /\ forall c : exc_class, proper_subclass c PadzError_t = false.
Proof.
  intros Hrun Hclass. split.
  - rewrite (exec_run_raised self args input_text tr e Hrun).
    rewrite Hclass. reflexivity.
  - intros c. destruct c; reflexivity.
Qed.

(** C6, as the code has it.  When the call of [subprocess.run] at hand
    raises nothing but [FileNotFoundError] and [SubprocessError], every
    failure of [_exec] is a [PadzError]; a failure of an operation is a
    [PadzError], or the [ValueError] of [create] on empty content, or an
    exception of the decoding step after the tool exited with 0, which the
    client does not translate. *)
Theorem failures_of_the_client :
  (forall (self : PadzClient) (args : list string)
          (input_text : option string) (tr : trace) (e : exn),
      raises_handled_at (request self args input_text) ->
      fst (PadzClient._exec self args input_text tr) = Raise e ->
      class_of e = PadzError_t)
  /\ (forall (self : PadzClient) (c : call) (tr : trace) (e : exn),
      (forall req,
          snd (perform self c tr) = tr ++ [req] -> raises_handled_at req) ->
      fst (perform self c tr) = Raise e ->
      class_of e = PadzError_t
      \/ (c = Create EmptyString /\ e = ValueError "Content cannot be empty")
      \/ (parses_output c = true
          /\ decoding_error e = true
          /\ exists req out err,
               snd (perform self c tr) = tr ++ [req]
               /\ subprocess_run req
                  = Completed (mk_CompletedProcess 0 out err)
               /\ decode_output c out = Raise e)).
Proof.
  assert (Hexec : forall self args input_text tr,
    raises_handled_at (request self args input_text) ->
    (exists out err,
        subprocess_run (request self args input_text)
        = Completed (mk_CompletedProcess 0 out err)
        /\ fst (PadzClient._exec self args input_text tr) = Ret out)
    \/ exists msg,
        fst (PadzClient._exec self args input_text tr)
        = Raise (PadzError msg)).
  { intros self args input_text tr Hhandled.
    destruct (subprocess_run (request self args input_text))
      as [[code out err] | e0] eqn:Hrun.
    - rewrite (exec_completed self args input_text tr _ Hrun).
      unfold interpret. cbn [fst stdout stderr returncode].
      destruct (stdout_error out) as [msg |]; [right; eauto |].
      destruct (Z.eqb_spec code 0) as [-> |]; [left | right]; eauto.
    - rewrite (exec_run_raised self args input_text tr e0 Hrun).
      cbn [fst]. right.
      destruct (Hhandled e0 Hrun) as [-> | Hsub]; [eauto |].
      rewrite Hsub. destruct (isinstance e0 FileNotFoundError_t); eauto. }
  split.
  - intros self args input_text tr e Hhandled He.
    destruct (Hexec self args input_text tr Hhandled)
      as [(out & err & _ & Hret) | (msg & Hraise)].
    + rewrite Hret in He. discriminate.
    + rewrite Hraise in He. injection He as <-. reflexivity.
  - intros self c tr e Hhandled He.
    destruct (gated c) eqn:Hgate.
    + rewrite (perform_gated self c tr Hgate) in He. cbn [fst] in He.
      injection He as <-.
      destruct c; cbn [gated] in Hgate; try discriminate.
      * right. left. destruct content; [split; reflexivity | discriminate].
      * left. reflexivity.
    + destruct (perform_factors self c tr Hgate)
        as (args & input_text & Hperform & _).
      rewrite Hperform in He, Hhandled |- *. cbn [fst snd] in *.
      destruct (Hexec self args input_text tr (Hhandled _ eq_refl))
        as [(out & err & Hrun & Hret) | (msg & Hraise)].
      * rewrite Hret in He. cbn [Out.bind] in He.
        right. right.
        assert (Hparse : parses_output c = true).
        { unfold decode_output in He.
          destruct (parses_output c); [reflexivity | discriminate]. }
        split; [exact Hparse |].
        split; [exact (decode_output_raises c out e He) |].
        exists (request self args input_text), out, err. auto.
      * rewrite Hraise in He. cbn [Out.bind] in He.
        injection He as <-. left. reflexivity.
Qed.

(** C7.  [create] on the empty string raises, and the trace of calls is
    unchanged: no subprocess is started.  The check stops nothing else:
    on any other content [create] makes its call, with the content as
    input. *)
Theorem create_empty_fails_fast (self : PadzClient) (tr : trace) :
  PadzClient.create self EmptyString tr
  = (Raise (ValueError "Content cannot be empty"), tr)
  /\ forall content : string,
       snd (PadzClient.create self content tr)
       = if PyStr.truthy content
         then tr ++ [mk_run_request ["padz"; "--format"; "json"]%string
                       (cwd self) (Some content)]
         else tr.
Proof.
  split; [reflexivity |].
  intros content. destruct (PyStr.truthy content) eqn:Hcontent.
  - assert (Hgate : gated (Create content) = false).
    { cbn [gated]. rewrite Hcontent. reflexivity. }
    destruct (perform_factors self (Create content) tr Hgate)
      as (args & input_text & Hperform & _ & -> & ->).
    apply (f_equal snd) in Hperform. cbn [snd] in Hperform.
    rewrite <- Hperform. unfold perform, map_M, Mon.bind.
    destruct (PadzClient.create self content tr) as [[s | e] tr'];
      reflexivity.
  - destruct content; [reflexivity | discriminate].
Qed.


(** C9.  Every call an operation makes carries ["--format"] followed by
    ["json"]; [create] sends its content on standard input and nothing but
    the flag as arguments; no other operation sends an input.  The two
    operations stopped by their own check make no call. *)
Theorem every_call_selects_json
    (self : PadzClient) (c : call) (tr : trace) :
  if gated c
  then snd (perform self c tr) = tr
  else exists req,
         snd (perform self c tr) = tr ++ [req]
         /\ has_format_json (run_cmd req) = true
         /\ match c with
            | Create content =>
                run_input req = Some content
                /\ run_cmd req = ["padz"; "--format"; "json"]%string
            | _ => run_input req = None
            end.
Proof.
  destruct (gated c) eqn:Hgate.
  - rewrite (perform_gated self c tr Hgate). reflexivity.
  - destruct (perform_factors self c tr Hgate)
      as (args & input_text & Hperform & Hflag & Hinput).
    exists (request self args input_text).
    rewrite Hperform. cbn [snd run_cmd run_input].
    split; [reflexivity |]. split; [exact Hflag |].
    destruct c; try exact Hinput.
    + destruct Hinput as [-> ->]. split; reflexivity.
    + destruct Hinput as [-> _]. reflexivity.
Qed.

(** C10.  After an exit code of 0 with a non-empty standard output, an
    operation that decodes the output raises [JSONDecodeError] when the
    text is not JSON, and [KeyError] when it is an object without the
    member the operation reads first; neither is a [PadzError]. *)
Theorem decoding_failures_escape
    (self : PadzClient) (c : call) (tr : trace) (req : run_request)
    (out err : string) :
  parses_output c = true ->
  snd (perform self c tr) = tr ++ [req] ->
  subprocess_run req = Completed (mk_CompletedProcess 0 out err) ->
  PyStr.truthy out = true ->
  (json_loads out = None ->
   fst (perform self c tr) = Raise JSONDecodeError
   /\ isinstance JSONDecodeError PadzError_t = false)
  /\ (forall (d : list (string * value)) (k : string),
      json_loads out = Some (JObj d) ->
      PyDict.get "error" d = None ->
      first_field c = Some k ->
      PyDict.get k d = None ->
      fst (perform self c tr) = Raise (KeyError k)
      /\ isinstance (KeyError k) PadzError_t = false).
Proof.
  intros Hparse Hcalls Hrun Hout. split.
  - intros Hjson. split; [| reflexivity].
    rewrite (perform_after_success self c tr req out err Hcalls Hrun).
    + unfold decode_output. rewrite Hparse, Hjson. reflexivity.
    + unfold stdout_error, embedded_error. rewrite Hout, Hjson. reflexivity.
  - intros d k Hjson Herror Hfield Hmissing. split; [| reflexivity].
    rewrite (perform_after_success self c tr req out err Hcalls Hrun).
    + unfold decode_output. rewrite Hparse, Hjson.
      destruct c; cbn [first_field] in Hfield; try discriminate;
        injection Hfield as <-;
        cbn [success_mapping]; unfold Scratch.from_dict, subscript;
        rewrite Hmissing; reflexivity.
    + unfold stdout_error, embedded_error.
      rewrite Hout, Hjson, Herror. reflexivity.
Qed.

End Claims.

(** ** The claims on concrete runs of the tool *)

(** C1 at exit code 0: the tool writes an error object and exits with 0;
    the hypotheses hold and [_exec] raises the embedded message. *)
Lemma exec_embedded_error_first_witness :
  PyStr.truthy (Json.dq "{'error': 'scratch not found'}") = true
  /\ Json.loads (Json.dq "{'error': 'scratch not found'}")
     = Some (JObj [("error", JStr "scratch not found")]%string)
  /\ PadzClient._exec
       (pf := tool_prints 0 (Json.dq "{'error': 'scratch not found'}")
                EmptyString)
       (mk_PadzClient None) ["view"; "7"; "--format"; "json"]%string None []
     = (Raise (PadzError (JStr "scratch not found")),
        [mk_run_request ["padz"; "view"; "7"; "--format"; "json"]%string
           None None]).
Proof.
  split; [reflexivity |]. split; [reflexivity |].
  apply (exec_embedded_error_first
           (pf := tool_prints 0 (Json.dq "{'error': 'scratch not found'}")
                    EmptyString)
           (mk_PadzClient None) ["view"; "7"; "--format"; "json"]%string
           None [] 0 (Json.dq "{'error': 'scratch not found'}") EmptyString
           [("error", JStr "scratch not found")]%string
           (JStr "scratch not found"));
    reflexivity.
Defined.

(** C2 at exit code 3 with text on both streams: the message is standard
    error, trimmed. *)
Lemma exec_nonzero_exit_message_witness :
  3 <> 0
  /\ stdout_error (pf := tool_prints 3 "partial" "  fatal: no such scratch  ")
       "partial" = None
  /\ PadzClient._exec
       (pf := tool_prints 3 "partial" "  fatal: no such scratch  ")
       (mk_PadzClient (Some "/srv")) ["delete"; "9"]%string None []
     = (Raise (PadzError (JStr "fatal: no such scratch")),
        [mk_run_request ["padz"; "delete"; "9"]%string (Some "/srv"%string)
           None]).
Proof.
  split; [lia |]. split; [reflexivity |].
  apply (exec_nonzero_exit_message
           (pf := tool_prints 3 "partial" "  fatal: no such scratch  ")
           (mk_PadzClient (Some "/srv"%string)) ["delete"; "9"]%string
           None [] 3 "partial" "  fatal: no such scratch  ");
    [reflexivity | lia | reflexivity].
Defined.

(** C3 as stated fails: the tool exits with 0 after writing the empty
    object, which is a JSON object without the key ["error"], and [view]
    raises [KeyError] instead of succeeding. *)
Lemma view_of_empty_object_fails :
  Json.loads "{}" = Some (JObj [])
  /\ is_container (JObj []) = true
  /\ in_dict "error" (JObj []) = false
  /\ perform (pf := tool_prints 0 "{}" EmptyString)
       (mk_PadzClient None) (View 1 false false) []
     = (Raise (KeyError "content"),
        [mk_run_request ["padz"; "view"; "1"; "--format"; "json"]%string
           None None])
  /\ ~ (exists a : answer,
         fst (perform (pf := tool_prints 0 "{}" EmptyString)
                (mk_PadzClient None) (View 1 false false) [])
         = Ret a).
Proof.
  repeat (split; [reflexivity |]).
  intros [a Ha]. discriminate Ha.
Qed.

(** C3 as the code has it, on two runs: [_exec] returns an array as
    written, and [view] returns the member ["content"] of the object the
    tool wrote. *)
Lemma exec_success_verbatim_witness :
  PadzClient._exec (pf := tool_prints 0 "[]" "warning")
    (mk_PadzClient None) ["ls"; "--format"; "json"]%string None []
  = (Ret "[]"%string,
     [mk_run_request ["padz"; "ls"; "--format"; "json"]%string None None])
  /\ fst (perform (pf := tool_prints 0 (Json.dq "{'content': 'hello'}")
                    EmptyString)
            (mk_PadzClient None) (View 1 false false) [])
     = Ret (AValue (JStr "hello")).
Proof.
  split.
  - apply (proj1 (exec_success_verbatim (pf := tool_prints 0 "[]" "warning"))
             (mk_PadzClient None) ["ls"; "--format"; "json"]%string None []
             "[]"%string "warning"%string);
      reflexivity.
  - apply (proj2 (exec_success_verbatim
                    (pf := tool_prints 0 (Json.dq "{'content': 'hello'}")
                             EmptyString))
             (mk_PadzClient None) (View 1 false false) []
             (mk_run_request ["padz"; "view"; "1"; "--format"; "json"]%string
                None None)
             (Json.dq "{'content': 'hello'}") EmptyString
             (JObj [("content", JStr "hello")]%string));
      reflexivity.
Defined.

(** C5 as stated fails: with the executable missing, the exception [_exec]
    raises has the class [PadzError] itself, not a class below it. *)
Lemma missing_tool_error_is_plain_PadzError :
  fst (PadzClient._exec (pf := platform_of (RunRaised FileNotFoundError))
         (mk_PadzClient None) ["ls"; "--format"; "json"]%string None [])
  = Raise (PadzError (JStr
      "padz command not found. Please ensure padz is installed and in PATH"))
  /\ ~ (exists e : exn,
         fst (PadzClient._exec
                (pf := platform_of (RunRaised FileNotFoundError))
                (mk_PadzClient None) ["ls"; "--format"; "json"]%string
                None [])
         = Raise e
         /\ proper_subclass (class_of e) PadzError_t = true).
Proof.
  split; [reflexivity |].
  intros [e [He Hclass]]. injection He as <-. discriminate Hclass.
Qed.

(** C5 as the code has it, with the executable missing. *)
Lemma exec_tool_not_found_witness :
  isinstance FileNotFoundError FileNotFoundError_t = true
  /\ PadzClient._exec (pf := platform_of (RunRaised FileNotFoundError))
       (mk_PadzClient None) ["ls"; "--format"; "json"]%string None []
     = (Raise (PadzError (JStr
          "padz command not found. Please ensure padz is installed and in PATH")),
        [mk_run_request ["padz"; "ls"; "--format"; "json"]%string None None]).
Proof.
  split; [reflexivity |].
  apply (proj1 (exec_tool_not_found
                  (pf := platform_of (RunRaised FileNotFoundError))
                  (mk_PadzClient None) ["ls"; "--format"; "json"]%string
                  None [] FileNotFoundError eq_refl eq_refl)).
Defined.

(** C6 as stated fails: [create] on the empty string raises [ValueError],
    which is not a [PadzError]. *)
Lemma create_empty_raises_ValueError :
  fst (perform (pf := tool_prints 0 EmptyString EmptyString)
         (mk_PadzClient None) (Create EmptyString) [])
  = Raise (ValueError "Content cannot be empty")
  /\ isinstance (ValueError "Content cannot be empty") PadzError_t = false.
Proof. split; reflexivity. Qed.

(** C6 as the code has it, on two runs.  On a platform without the tool,
    where a call in a named directory would be refused, [open] from no
    directory fails with a [PadzError]; on a tool that exits with 0 after
    writing a text that is not JSON, the failure of [view] is the third
    case. *)
Lemma failures_of_the_client_witness :
  (raises_handled_at (pf := platform_without_tool)
     (mk_run_request ["padz"; "open"; "1"; "--format"; "json"]%string
        None None)
   /\ fst (perform (pf := platform_without_tool) (mk_PadzClient None)
             (Open 1 false) [])
      = Raise (PadzError (JStr
          "padz command not found. Please ensure padz is installed and in PATH"))
   /\ class_of (PadzError (JStr
          "padz command not found. Please ensure padz is installed and in PATH"))
      = PadzError_t)
  /\ (class_of JSONDecodeError = PadzError_t
      \/ (View 1 false false = Create EmptyString
          /\ JSONDecodeError = ValueError "Content cannot be empty")
      \/ (parses_output (View 1 false false) = true
          /\ decoding_error JSONDecodeError = true
          /\ exists req out err,
               snd (perform (pf := tool_prints 0 "done" EmptyString)
                      (mk_PadzClient None) (View 1 false false) [])
               = [] ++ [req]
               /\ subprocess_run (Platform := tool_prints 0 "done" EmptyString)
                    req
                  = Completed (mk_CompletedProcess 0 out err)
               /\ decode_output (pf := tool_prints 0 "done" EmptyString)
                    (View 1 false false) out
                  = Raise JSONDecodeError)).
Proof.
  assert (Hmissing : raises_handled_at (pf := platform_without_tool)
            (mk_run_request ["padz"; "open"; "1"; "--format"; "json"]%string
               None None)).
  { intros e Hrun. injection Hrun as <-. left. reflexivity. }
  split.
  - split; [exact Hmissing |]. split; [reflexivity |].
    apply (proj1 (failures_of_the_client (pf := platform_without_tool))
             (mk_PadzClient None) ["open"; "1"; "--format"; "json"]%string
             None [] _ Hmissing).
    reflexivity.
  - apply (proj2 (failures_of_the_client
                    (pf := tool_prints 0 "done" EmptyString))
             (mk_PadzClient None) (View 1 false false) [] JSONDecodeError).
    + intros req Hreq e Hrun. discriminate Hrun.
    + reflexivity.
Defined.

(** C10 on two runs: [view] after a text that is not JSON, and [path]
    after an object without the member ["path"]. *)
Lemma decoding_failures_escape_witness :
  (Json.loads "done" = None
   /\ fst (perform (pf := tool_prints 0 "done" EmptyString)
             (mk_PadzClient None) (View 1 false false) [])
      = Raise JSONDecodeError
   /\ isinstance JSONDecodeError PadzError_t = false)
  /\ (Json.loads (Json.dq "{'id': 'a1'}") = Some (JObj [("id", JStr "a1")]%string)
      /\ fst (perform (pf := tool_prints 0 (Json.dq "{'id': 'a1'}") EmptyString)
                (mk_PadzClient None) (Path 2 true) [])
         = Raise (KeyError "path")
      /\ isinstance (KeyError "path") PadzError_t = false).
Proof.
  split.
  - split; [reflexivity |].
    apply (proj1 (decoding_failures_escape
                    (pf := tool_prints 0 "done" EmptyString)
                    (mk_PadzClient None) (View 1 false false) []
                    (mk_run_request
                       ["padz"; "view"; "1"; "--format"; "json"]%string
                       None None)
                    "done"%string EmptyString
                    eq_refl eq_refl eq_refl eq_refl)).
    reflexivity.
  - split; [reflexivity |].
    apply (proj2 (decoding_failures_escape
                    (pf := tool_prints 0 (Json.dq "{'id': 'a1'}") EmptyString)
                    (mk_PadzClient None) (Path 2 true) []
                    (mk_run_request
                       ["padz"; "path"; "2"; "--format"; "json"; "--all"]%string
                       None None)
                    (Json.dq "{'id': 'a1'}") EmptyString
                    eq_refl eq_refl eq_refl eq_refl)
             [("id", JStr "a1")]%string "path"%string);
      reflexivity.
Defined.

(** ** Further properties of the client *)

Section Further.

Context {pf : Platform}.

Local Notation request self args input_text :=
  (mk_run_request ("padz" :: args) (cwd self) input_text).

(** Splits on an outcome the goal matches on, innermost first. *)
Ltac split_outcome :=
  match goal with
  | |- context [match ?x with Ret _ => _ | Raise _ => _ end] =>
      lazymatch x with
      | context [match _ with Ret _ => _ | Raise _ => _ end] => fail
      | _ => destruct x
      end
  end.

(** The arguments and the input of the call an operation makes depend on
    the operation and its parameters only, not on the client, the platform
    or the calls made before. *)
Lemma perform_request (c : call) :
  gated c = false ->
  exists args input_text,
    forall (pf' : Platform) (self : PadzClient) (tr : trace),
      snd (perform (pf := pf') self c tr)
      = tr ++ [request self args input_text].
Proof.
  intros Hgate.
  destruct c; cbn [gated] in Hgate; try discriminate;
    eexists; eexists; intros pf' self tr;
    unfold perform, map_M,
      PadzClient.create, PadzClient.list, PadzClient.view, PadzClient.open,
      PadzClient.peek, PadzClient.delete, PadzClient.path, PadzClient.search,
      PadzClient.cleanup, PadzClient.nuke;
    rewrite ?Hgate; cbv zeta; unfold Mon.bind;
    match goal with
    | |- context [PadzClient._exec ?s ?args ?inp ?t] =>
        pose proof (exec_calls (pf := pf') s args inp t) as Hcalls;
        destruct (PadzClient._exec s args inp t) as [[output | e] tr']
    end;
    cbn [fst snd] in *; subst tr';
    unfold Mon.loads, Mon.lift, Mon.ret, Mon.raise, PadzClient.scratches;
    try destruct (json_loads output);
    cbv beta iota; repeat split_outcome; reflexivity.
Qed.

(** X1.  What an operation adds to the trace is at most one call; the
    call runs the program ["padz"] in the working directory of the
    client. *)
Theorem calls_run_padz_in_client_directory
    (self : PadzClient) (c : call) (tr : trace) :
  exists new : trace,
    snd (perform self c tr) = tr ++ new
    /\ (List.length new <= 1)%nat
    /\ Forall (fun req =>
                 run_cwd req = cwd self
                 /\ hd_error (run_cmd req) = Some "padz"%string) new.
Proof.
  destruct (gated c) eqn:Hgate.
  - exists []. rewrite (perform_gated self c tr Hgate).
    cbn [snd]. rewrite app_nil_r. repeat split; [cbn; lia | constructor].
  - destruct (perform_request c Hgate) as (args & input_text & Hreq).
    exists [request self args input_text].
    rewrite (Hreq pf self tr). repeat split; [cbn; lia |].
    constructor; [split; reflexivity | constructor].
Qed.

(** X2.  [with_cwd] changes the working directory of the calls and
    nothing else: the calls of an operation on the new client are those on
    the old one with the directory replaced. *)
Theorem with_cwd_changes_directory_only
    (self : PadzClient) (d : string) (c : call) (tr : trace) :
  snd (perform (PadzClient.with_cwd self d) c tr)
  = tr ++ map (with_run_cwd (Some d)) (snd (perform self c [])).
Proof.
  destruct (gated c) eqn:Hgate.
  - rewrite !(perform_gated _ c _ Hgate). cbn [snd map].
    rewrite app_nil_r. reflexivity.
  - destruct (perform_request c Hgate) as (args & input_text & Hreq).
    rewrite !(Hreq pf). reflexivity.
Qed.

Lemma subprocess_error_not_file_not_found (e : exn) :
  isinstance e SubprocessError_t = true ->
  isinstance e FileNotFoundError_t = false.
Proof. destruct e; cbn; congruence. Qed.

(** X3.  When [subprocess.run] raises a [SubprocessError], [_exec] raises
    a [PadzError] whose message is ["Failed to execute command: "]
    followed by the text of that exception. *)
Theorem exec_wraps_subprocess_error
    (self : PadzClient) (args : list string) (input_text : option string)
    (tr : trace) (e : exn) :
  subprocess_run (request self args input_text) = RunRaised e ->
  isinstance e SubprocessError_t = true ->
  PadzClient._exec self args input_text tr
  = (Raise (PadzError (JStr
       ("Failed to execute command: " ++ str_exn e)%string)),
     tr ++ [request self args input_text]).
Proof.
  intros Hrun Hclass.
  rewrite (exec_run_raised self args input_text tr e Hrun).
  rewrite (subprocess_error_not_file_not_found e Hclass), Hclass.
  reflexivity.
Qed.

(** X4.  An exception of [subprocess.run] that is neither a
    [FileNotFoundError] nor a [SubprocessError] passes through [_exec]
    unchanged: no clause catches it. *)
Theorem exec_propagates_other_exceptions
    (self : PadzClient) (args : list string) (input_text : option string)
    (tr : trace) (e : exn) :
  subprocess_run (request self args input_text) = RunRaised e ->
  isinstance e FileNotFoundError_t = false ->
  isinstance e SubprocessError_t = false ->
  PadzClient._exec self args input_text tr
  = (Raise e, tr ++ [request self args input_text]).
Proof.
  intros Hrun Hfile Hsub.
  rewrite (exec_run_raised self args input_text tr e Hrun).
  rewrite Hfile, Hsub. reflexivity.
Qed.

(** X5.  No operation catches or changes an exception of [_exec]: when
    the call it makes ends in an exception of [_exec], the operation
    raises that exception. *)
Theorem operations_surface_exec_failure
    (self : PadzClient) (c : call) (tr : trace)
    (args : list string) (input_text : option string) (e : exn) :
  snd (perform self c tr) = tr ++ [request self args input_text] ->
  fst (PadzClient._exec self args input_text tr) = Raise e ->
  fst (perform self c tr) = Raise e.
Proof.
  intros Hcalls Hexec.
  destruct (perform_calls self c tr _ Hcalls)
    as (_ & args' & input' & Hreq & ->).
  injection Hreq as <- <-. rewrite Hexec. reflexivity.
Qed.

(** Every failure of [_exec] is a [PadzError] when its call of
    [subprocess.run] raises nothing but what the two clauses catch. *)
Lemma exec_raises_domain_error
    (self : PadzClient) (args : list string) (input_text : option string)
    (tr : trace) (e : exn) :
  raises_handled_at (request self args input_text) ->
  fst (PadzClient._exec self args input_text tr) = Raise e ->
  class_of e = PadzError_t.
Proof.
  intros Hhandled.
  destruct (subprocess_run (request self args input_text))
    as [p | e0] eqn:Hrun.
  - rewrite (exec_completed self args input_text tr p Hrun).
    unfold interpret. cbn [fst].
    destruct (stdout_error (stdout p)); [intros [= <-]; reflexivity |].
    destruct (returncode p =? 0); [discriminate |].
    intros [= <-]. reflexivity.
  - rewrite (exec_run_raised self args input_text tr e0 Hrun). cbn [fst].
    destruct (Hhandled e0 Hrun) as [Hfile | Hsub].
    + rewrite Hfile. intros [= <-]. reflexivity.
    + rewrite (subprocess_error_not_file_not_found e0 Hsub), Hsub.
      intros [= <-]. reflexivity.
Qed.

(** What [_exec] returns is the standard output of a process that exited
    with 0 and wrote no error object. *)
Lemma exec_returns_clean_output
    (self : PadzClient) (args : list string) (input_text : option string)
    (tr : trace) (output : string) :
  fst (PadzClient._exec self args input_text tr) = Ret output ->
  exists err,
    subprocess_run (request self args input_text)
    = Completed (mk_CompletedProcess 0 output err)
    /\ stdout_error output = None.
Proof.
  destruct (subprocess_run (request self args input_text))
    as [[code out err] | e0] eqn:Hrun.
  - rewrite (exec_completed self args input_text tr _ Hrun).
    unfold interpret. cbn [fst stdout stderr returncode].
    destruct (stdout_error out) eqn:Hclean; [discriminate |].
    destruct (Z.eqb_spec code 0) as [-> |]; [| discriminate].
    intros [= <-]. exists err. split; [reflexivity | exact Hclean].
  - rewrite (exec_run_raised self args input_text tr e0 Hrun). discriminate.
Qed.

(** X6.  [open], [delete] and [cleanup] never look at the output: after
    an exit code of 0 they return [None] whatever the tool wrote, JSON or
    not, as long as it is not an error object. *)
Theorem void_operations_ignore_output
    (self : PadzClient) (c : call) (tr : trace) (req : run_request)
    (out err : string) :
  parses_output c = false ->
  snd (perform self c tr) = tr ++ [req] ->
  subprocess_run req = Completed (mk_CompletedProcess 0 out err) ->
  stdout_error out = None ->
  fst (perform self c tr) = Ret ANone.
Proof.
  intros Hparse Hcalls Hrun Hclean.
  rewrite (perform_after_success self c tr req out err Hcalls Hrun Hclean).
  unfold decode_output. rewrite Hparse. reflexivity.
Qed.

(** X7.  [open], [delete] and [cleanup] fail with [PadzError] only, when
    the call of [subprocess.run] they make raises nothing but
    [FileNotFoundError] and [SubprocessError]. *)
Theorem void_operations_raise_domain_errors
    (self : PadzClient) (c : call) (tr : trace) (e : exn) :
  parses_output c = false ->
  (forall req,
      snd (perform self c tr) = tr ++ [req] -> raises_handled_at req) ->
  fst (perform self c tr) = Raise e ->
  class_of e = PadzError_t.
Proof.
  intros Hparse Hhandled He.
  assert (Hgate : gated c = false) by (destruct c; try discriminate; reflexivity).
  destruct (perform_factors self c tr Hgate)
    as (args & input_text & Hperform & _).
  rewrite Hperform in He, Hhandled. cbn [fst snd] in He, Hhandled.
  destruct (fst (PadzClient._exec self args input_text tr))
    as [output | e'] eqn:Hexec; cbn [Out.bind] in He.
  - unfold decode_output in He. rewrite Hparse in He. discriminate.
  - injection He as <-.
    exact (exec_raises_domain_error self args input_text tr e'
             (Hhandled _ eq_refl) Hexec).
Qed.

(** X8.  A non-zero exit code fails every operation with a [PadzError],
    whatever the tool wrote: no result is ever built from the output of a
    failed command. *)
Theorem nonzero_exit_fails_every_operation
    (self : PadzClient) (c : call) (tr : trace) (req : run_request)
    (code : Z) (out err : string) :
  snd (perform self c tr) = tr ++ [req] ->
  subprocess_run req = Completed (mk_CompletedProcess code out err) ->
  code <> 0 ->
  exists msg, fst (perform self c tr) = Raise (PadzError msg).
Proof.
  intros Hcalls Hrun Hcode.
  destruct (perform_calls self c tr req Hcalls)
    as (_ & args & input_text & -> & ->).
  rewrite (exec_completed self args input_text tr _ Hrun).
  unfold interpret. cbn [fst stdout stderr returncode].
  destruct (stdout_error out) as [msg |]; [exists msg; reflexivity |].
  apply Z.eqb_neq in Hcode. rewrite Hcode. eexists. reflexivity.
Qed.

(** X9.  An operation returns a result only after it called the tool and
    the tool exited with 0 without an error object on standard output. *)
Theorem success_requires_clean_exit
    (self : PadzClient) (c : call) (tr : trace) (a : answer) :
  fst (perform self c tr) = Ret a ->
  exists req out err,
    snd (perform self c tr) = tr ++ [req]
    /\ subprocess_run req = Completed (mk_CompletedProcess 0 out err)
    /\ stdout_error out = None
    /\ decode_output c out = Ret a.
Proof.
  intros Hret.
  destruct (gated c) eqn:Hgate.
  - rewrite (perform_gated self c tr Hgate) in Hret. discriminate.
  - destruct (perform_factors self c tr Hgate)
      as (args & input_text & Hperform & _).
    rewrite Hperform in Hret |- *. cbn [fst snd] in *.
    destruct (fst (PadzClient._exec self args input_text tr))
      as [output | e] eqn:Hexec; cbn [Out.bind] in Hret; [| discriminate].
    destruct (exec_returns_clean_output self args input_text tr output Hexec)
      as (err & Hrun & Hclean).
    exists (request self args input_text), output, err. auto.
Qed.

(** After an exit code of 0, an operation applies its mapping to the
    value decoded from standard output, when that value is no error
    object. *)
Lemma perform_maps_decoded
    (self : PadzClient) (c : call) (tr : trace) (req : run_request)
    (out err : string) (v : value) :
  snd (perform self c tr) = tr ++ [req] ->
  subprocess_run req = Completed (mk_CompletedProcess 0 out err) ->
  json_loads out = Some v ->
  in_dict "error" v = false ->
  fst (perform self c tr)
  = if parses_output c then success_mapping c v else Ret ANone.
Proof.
  intros Hcalls Hrun Hjson Hkey.
  assert (Hclean : stdout_error out = None).
  { unfold stdout_error, embedded_error. rewrite Hjson.
    destruct (PyStr.truthy out); [| reflexivity].
    destruct v; try reflexivity.
    cbn [in_dict] in Hkey. unfold PyDict.contains in Hkey.
    destruct (PyDict.get "error" members); [discriminate | reflexivity]. }
  rewrite (perform_after_success self c tr req out err Hcalls Hrun Hclean).
  unfold decode_output. rewrite Hjson. reflexivity.
Qed.

(** *** [Scratch.from_dict] *)

(** X10.  [Scratch.from_dict] raises [TypeError] on a value that is not a
    dictionary, and on a dictionary it raises [KeyError] for the first of
    ["id"], ["project"], ["title"], ["created_at"] that is missing. *)
Theorem from_dict_lookup_errors :
  (forall v : value,
      is_dict v = false -> Scratch.from_dict v = Raise TypeError)
  /\ (forall (d : list (string * value)) (k : string),
        first_missing d = Some k ->
        Scratch.from_dict (JObj d) = Raise (KeyError k)).
Proof.
  split.
  - intros v Hv. destruct v; try discriminate; reflexivity.
  - intros d k. unfold first_missing, scratch_keys, PyDict.contains.
    unfold Scratch.from_dict, subscript. cbn [find].
    destruct (PyDict.get "id" d); cbn [negb Out.bind];
      [| intros [= <-]; reflexivity].
    destruct (PyDict.get "project" d); cbn [negb Out.bind];
      [| intros [= <-]; reflexivity].
    destruct (PyDict.get "title" d); cbn [negb Out.bind];
      [| intros [= <-]; reflexivity].
    destruct (PyDict.get "created_at" d); cbn [negb Out.bind];
      [discriminate | intros [= <-]; reflexivity].
Qed.

(** X12.  [Scratch.from_dict] reads the four members and nothing else:
    two dictionaries that agree on them give the same result. *)
Theorem from_dict_ignores_other_members (d d' : list (string * value)) :
  (forall k, In k scratch_keys -> PyDict.get k d = PyDict.get k d') ->
  Scratch.from_dict (JObj d) = Scratch.from_dict (JObj d').
Proof.
  intros Hsame. unfold Scratch.from_dict, subscript.
  rewrite (Hsame "id"%string), (Hsame "project"%string),
    (Hsame "title"%string), (Hsame "created_at"%string);
    [reflexivity | | | |]; cbn; tauto.
Qed.

Lemma string_append_assoc (a b c : string) :
  ((a ++ b) ++ c = a ++ (b ++ c))%string.
Proof.
  induction a as [| x a IH]; cbn [String.append]; [reflexivity |].
  rewrite IH. reflexivity.
Qed.

Lemma replace_char_append (old : ascii) (new a b : string) :
  PyStr.replace_char old new (a ++ b)
  = (PyStr.replace_char old new a ++ PyStr.replace_char old new b)%string.
Proof.
  induction a as [| x a IH]; cbn [String.append PyStr.replace_char];
    [reflexivity |].
  destruct (Ascii.eqb x old); rewrite IH; [| reflexivity].
  symmetry. apply string_append_assoc.
Qed.

Lemma dict_get_set_other (k k' : string) (v : value)
    (d : list (string * value)) :
  String.eqb k k' = false ->
  PyDict.get k (PyDict.set k' v d) = PyDict.get k d.
Proof.
  intros Hk. induction d as [| [k0 v0] r IH]; cbn [PyDict.set PyDict.get].
  - rewrite Hk. reflexivity.
  - destruct (String.eqb_spec k' k0) as [<- | Hne]; cbn [PyDict.get].
    + rewrite Hk. reflexivity.
    + rewrite IH. reflexivity.
Qed.

(** X13.  A timestamp ending in ["Z"] and the same timestamp ending in
    ["+00:00"] give the same scratch, or the same exception. *)
Theorem from_dict_Z_same_as_offset (d : list (string * value)) (s : string) :
  Scratch.from_dict
    (JObj (PyDict.set "created_at" (JStr (s ++ "Z")) d))
  = Scratch.from_dict
      (JObj (PyDict.set "created_at" (JStr (s ++ "+00:00")) d)).
Proof.
  unfold Scratch.from_dict, subscript.
  repeat rewrite dict_get_set.
  repeat rewrite dict_get_set_other by reflexivity.
  destruct (PyDict.get "id" d); [| reflexivity].
  destruct (PyDict.get "project" d); [| reflexivity].
  destruct (PyDict.get "title" d); [| reflexivity].
  cbn [Out.bind py_replace].
  rewrite !replace_char_append. reflexivity.
Qed.

(** *** [list] and [search] *)

Lemma map_list_ret_iff (items : list value) (l : list Scratch) :
  Out.map_list Scratch.from_dict items = Ret l
  <-> Forall2 (fun v s => Scratch.from_dict v = Ret s) items l.
Proof.
  revert l. induction items as [| v r IH]; intros l; cbn [Out.map_list].
  - split.
    + intros [= <-]. constructor.
    + intros Hall. inversion Hall. reflexivity.
  - split.
    + destruct (Scratch.from_dict v) as [s |] eqn:Hv; cbn [Out.bind];
        [| discriminate].
      destruct (Out.map_list Scratch.from_dict r) as [l' |] eqn:Hr;
        cbn [Out.bind]; [| discriminate].
      intros [= <-]. constructor; [exact Hv |]. apply IH. reflexivity.
    + intros Hall. inversion Hall as [| v' s r' l' Hv Hr]; subst.
      rewrite Hv. cbn [Out.bind].
      apply IH in Hr. rewrite Hr. reflexivity.
Qed.

Lemma map_list_first_failure (before after : list value) (v : value)
    (l : list Scratch) (e : exn) :
  Out.map_list Scratch.from_dict before = Ret l ->
  Scratch.from_dict v = Raise e ->
  Out.map_list Scratch.from_dict (before ++ v :: after) = Raise e.
Proof.
  revert l. induction before as [| x r IH]; intros l Hbefore Hv;
    cbn [app Out.map_list].
  - rewrite Hv. reflexivity.
  - cbn [Out.map_list] in Hbefore.
    destruct (Scratch.from_dict x); cbn [Out.bind] in *; [| discriminate].
    destruct (Out.map_list Scratch.from_dict r) as [l' |] eqn:Hr;
      cbn [Out.bind] in *; [| discriminate].
    rewrite (IH l' eq_refl Hv). reflexivity.
Qed.

(** X14.  When the tool exits with 0 and writes an array, [list] and
    [search] return one scratch for each item, in the order of the array:
    the result is [l] exactly when each item maps to the scratch at its
    place in [l]. *)
Theorem listing_maps_array_in_order
    (self : PadzClient) (c : call) (tr : trace) (req : run_request)
    (out err : string) (items : list value) (l : list Scratch) :
  is_listing c = true ->
  snd (perform self c tr) = tr ++ [req] ->
  subprocess_run req = Completed (mk_CompletedProcess 0 out err) ->
  json_loads out = Some (JArr items) ->
  fst (perform self c tr) = Ret (AScratches l)
  <-> Forall2 (fun v s => Scratch.from_dict v = Ret s) items l.
Proof.
  intros Hlisting Hcalls Hrun Hjson.
  rewrite (perform_maps_decoded self c tr req out err (JArr items)
             Hcalls Hrun Hjson eq_refl).
  rewrite <- map_list_ret_iff.
  destruct c; try discriminate; cbn [parses_output success_mapping py_iter
                                     Out.bind];
    destruct (Out.map_list Scratch.from_dict items); cbn [Out.bind];
    split; congruence.
Qed.

(** X15.  [list] and [search] stop at the first item of the array that
    [Scratch.from_dict] refuses and raise its exception; the items before
    it are lost. *)
Theorem listing_fails_at_first_bad_item
    (self : PadzClient) (c : call) (tr : trace) (req : run_request)
    (out err : string) (before after : list value) (v : value)
    (l : list Scratch) (e : exn) :
  is_listing c = true ->
  snd (perform self c tr) = tr ++ [req] ->
  subprocess_run req = Completed (mk_CompletedProcess 0 out err) ->
  json_loads out = Some (JArr (before ++ v :: after)) ->
  Out.map_list Scratch.from_dict before = Ret l ->
  Scratch.from_dict v = Raise e ->
  fst (perform self c tr) = Raise e.
Proof.
  intros Hlisting Hcalls Hrun Hjson Hbefore Hv.
  rewrite (perform_maps_decoded self c tr req out err _
             Hcalls Hrun Hjson eq_refl).
  destruct c; try discriminate; cbn [parses_output success_mapping py_iter
                                     Out.bind];
    rewrite (map_list_first_failure before after v l e Hbefore Hv);
    reflexivity.
Qed.

(** X16.  When the tool exits with 0 and writes a value that is not an
    array, [list] and [search] iterate over it as Python does: the empty
    object and the empty string give the empty list; any other object
    (without ["error"]), string or scalar raises [TypeError]. *)
Theorem listing_of_non_array
    (self : PadzClient) (c : call) (tr : trace) (req : run_request)
    (out err : string) (v : value) :
  is_listing c = true ->
  snd (perform self c tr) = tr ++ [req] ->
  subprocess_run req = Completed (mk_CompletedProcess 0 out err) ->
  json_loads out = Some v ->
  in_dict "error" v = false ->
  match v with
  | JArr _ => True
  | JObj [] | JStr EmptyString =>
      fst (perform self c tr) = Ret (AScratches [])
  | _ => fst (perform self c tr) = Raise TypeError
  end.
Proof.
  intros Hlisting Hcalls Hrun Hjson Hkey.
  rewrite (perform_maps_decoded self c tr req out err v
             Hcalls Hrun Hjson Hkey).
  destruct c; try discriminate; cbn [parses_output success_mapping];
    destruct v as [| b | n | f | s | items | d]; try exact I;
    try reflexivity.
  all: try (destruct s; reflexivity).
  all: destruct d as [| [k x] r]; reflexivity.
Qed.

(** *** The operations that read members of an object *)

(** X17.  [create], [view], [peek], [path] and [nuke] need an object: when
    the tool exits with 0 and writes any other JSON value, they raise
    [TypeError]. *)
Theorem member_operations_need_an_object
    (self : PadzClient) (c : call) (tr : trace) (req : run_request)
    (out err : string) (v : value) (k : string) :
  first_field c = Some k ->
  snd (perform self c tr) = tr ++ [req] ->
  subprocess_run req = Completed (mk_CompletedProcess 0 out err) ->
  json_loads out = Some v ->
  is_dict v = false ->
  fst (perform self c tr) = Raise TypeError.
Proof.
  intros Hfield Hcalls Hrun Hjson Hdict.
  assert (Hkey : in_dict "error" v = false)
    by (destruct v; try discriminate; reflexivity).
  rewrite (perform_maps_decoded self c tr req out err v
             Hcalls Hrun Hjson Hkey).
  destruct c; try discriminate; cbn [parses_output success_mapping];
    destruct v; try discriminate; reflexivity.
Qed.

(** X18.  The result of [nuke]: ["deleted_count"] and ["scope"] are
    required, in that order, and ["project_name"] is optional, [None]
    when the object has none. *)
Theorem nuke_result_members
    (self : PadzClient) (all : bool) (tr : trace) (req : run_request)
    (out err : string) (d : list (string * value)) :
  snd (perform self (Nuke all true) tr) = tr ++ [req] ->
  subprocess_run req = Completed (mk_CompletedProcess 0 out err) ->
  json_loads out = Some (JObj d) ->
  PyDict.get "error" d = None ->
  fst (perform self (Nuke all true) tr)
  = match PyDict.get "deleted_count" d, PyDict.get "scope" d with
    | Some n, Some s =>
        Ret (ANuke (mk_NukeResult n s
                      match PyDict.get "project_name" d with
                      | Some p => p
                      | None => JNull
                      end))
    | None, _ => Raise (KeyError "deleted_count")
    | Some _, None => Raise (KeyError "scope")
    end.
Proof.
  intros Hcalls Hrun Hjson Hkey.
  assert (Hkey' : in_dict "error" (JObj d) = false).
  { cbn [in_dict]. unfold PyDict.contains. rewrite Hkey. reflexivity. }
  rewrite (perform_maps_decoded self _ tr req out err (JObj d)
             Hcalls Hrun Hjson Hkey').
  cbn [parses_output success_mapping subscript py_get].
  destruct (PyDict.get "deleted_count" d); [| reflexivity].
  destruct (PyDict.get "scope" d); [| reflexivity].
  destruct (PyDict.get "project_name" d); reflexivity.
Qed.

(** *** The argument vectors *)

(** The call each operation makes, argument by argument. *)
Lemma perform_argv (self : PadzClient) (c : call) (tr : trace) :
  gated c = false ->
  snd (perform self c tr)
  = tr ++ [request self
             match c with
             | Create _ => ["--format"; "json"]
             | List a g =>
                 append_if g "--global"
                   (append_if a "--all" ["ls"; "--format"; "json"])
             | View i a g =>
                 append_if g "--global"
                   (append_if a "--all"
                      ["view"; PyStr.of_int i; "--format"; "json"])
             | Open i a =>
                 append_if a "--all"
                   ["open"; PyStr.of_int i; "--format"; "json"]
             | Peek i a g n =>
                 append_if g "--global"
                   (append_if a "--all"
                      ["peek"; PyStr.of_int i; "--format"; "json";
                       "--lines"; PyStr.of_int n])
             | Delete i a =>
                 append_if a "--all"
                   ["delete"; PyStr.of_int i; "--format"; "json"]
             | Path i a =>
                 append_if a "--all"
                   ["path"; PyStr.of_int i; "--format"; "json"]
             | Search t a g =>
                 append_if g "--global"
                   (append_if a "--all" ["search"; t; "--format"; "json"])
             | Cleanup d =>
                 ["cleanup"; "--format"; "json"; "--days"; PyStr.of_int d]
             | Nuke a _ =>
                 append_if a "--all" ["nuke"; "--format"; "json"; "--yes"]
             end%string
             match c with
             | Create content => Some content
             | _ => None
             end].
Proof.
  intros Hgate.
  destruct c; cbn [gated] in Hgate; try discriminate;
    unfold perform, map_M,
      PadzClient.create, PadzClient.list, PadzClient.view, PadzClient.open,
      PadzClient.peek, PadzClient.delete, PadzClient.path, PadzClient.search,
      PadzClient.cleanup, PadzClient.nuke;
    rewrite ?Hgate; cbv zeta; unfold Mon.bind;
    match goal with
    | |- context [PadzClient._exec ?s ?args ?inp ?t] =>
        pose proof (exec_calls s args inp t) as Hcalls;
        destruct (PadzClient._exec s args inp t) as [[output | e] tr']
    end;
    cbn [fst snd] in *; subst tr';
    unfold Mon.loads, Mon.lift, Mon.ret, Mon.raise, PadzClient.scratches;
    try destruct (json_loads output);
    cbv beta iota; repeat split_outcome; reflexivity.
Qed.

(** The decimal text of an integer never starts with two dashes. *)
Lemma of_int_not_flag (n : Z) (r : string) :
  PyStr.of_int n <> String "-" (String "-" r).
Proof.
  unfold PyStr.of_int.
  destruct (Z.to_int n) as [u | u]; destruct u; cbn; discriminate.
Qed.

(** X19.  The flags follow the parameters: ["--all"] is among the
    arguments of a call exactly when the operation was given [all], and
    ["--global"] exactly when it was given [global_]; the one other way
    in is the term of [search], passed on as it is, when the term is
    itself the flag. *)
Theorem flags_follow_parameters
    (self : PadzClient) (c : call) (tr : trace) (req : run_request) :
  snd (perform self c tr) = tr ++ [req] ->
  (In "--all"%string (run_cmd req)
   <-> all_of c = true \/ term_of c = Some "--all"%string)
  /\ (In "--global"%string (run_cmd req)
      <-> global_of c = true \/ term_of c = Some "--global"%string).
Proof.
  intros Hcalls.
  destruct (perform_calls self c tr req Hcalls) as (Hgate & _).
  rewrite (perform_argv self c tr Hgate) in Hcalls.
  apply app_inv_head in Hcalls. injection Hcalls as <-.
  cbn [run_cmd].
  destruct c as [content | a g | i a g | i a | i a g n | i a | i a | t a g
                | d | a y];
    cbn [all_of global_of term_of];
    try destruct a; try destruct g; cbn [append_if app In];
    (split; (split;
     [ intros Hin;
       repeat match type of Hin with
         | _ \/ _ => destruct Hin as [Hin | Hin]
         end;
       try discriminate Hin; try contradiction;
       try (exfalso; exact (of_int_not_flag _ _ Hin));
       try (left; reflexivity);
       try (right; f_equal; exact Hin)
     | intros [Hparam | Hterm];
       try discriminate;
       try (injection Hterm as ->);
       tauto ])).
Qed.

(** *** The message of a failed command *)

Lemma lstrip_no_leading_space (s : string) :
  starts_with_space (PyStr.lstrip s) = false.
Proof.
  induction s as [| c r IH]; cbn [PyStr.lstrip]; [reflexivity |].
  destruct (PyStr.isspace c) eqn:Hc; [exact IH |].
  cbn [starts_with_space]. exact Hc.
Qed.

Lemma rstrip_no_trailing_space (s : string) :
  ends_with_space (PyStr.rstrip s) = false.
Proof.
  induction s as [| c r IH]; cbn [PyStr.rstrip]; [reflexivity |].
  destruct (PyStr.rstrip r) as [| c' r'] eqn:Hr.
  - destruct (PyStr.isspace c) eqn:Hc; [reflexivity |].
    cbn [ends_with_space]. exact Hc.
  - cbn [ends_with_space] in IH |- *. exact IH.
Qed.

Lemma rstrip_keeps_first (s : string) :
  starts_with_space s = false -> starts_with_space (PyStr.rstrip s) = false.
Proof.
  destruct s as [| c r]; [reflexivity |].
  cbn [starts_with_space PyStr.rstrip]. intros Hc.
  destruct (PyStr.rstrip r); [rewrite Hc |]; cbn [starts_with_space];
    exact Hc.
Qed.

(** X20.  The message of a command that failed without an error object
    is the chosen text without white space at either end. *)
Theorem failure_message_is_trimmed
    (self : PadzClient) (args : list string) (input_text : option string)
    (tr : trace) (code : Z) (out err : string) :
  subprocess_run (request self args input_text)
  = Completed (mk_CompletedProcess code out err) ->
  code <> 0 ->
  stdout_error out = None ->
  embedded_error (failure_text code out err) = None ->
  exists m : string,
    fst (PadzClient._exec self args input_text tr) = Raise (PadzError (JStr m))
    /\ starts_with_space m = false
    /\ ends_with_space m = false.
Proof.
  intros Hrun Hcode Hclean Htext.
  exists (PyStr.strip (failure_text code out err)).
  rewrite (exec_completed self args input_text tr _ Hrun).
  unfold interpret, failure_message.
  cbn [fst stdout stderr returncode]. rewrite Hclean, Htext.
  apply Z.eqb_neq in Hcode. rewrite Hcode.
  split; [reflexivity |]. unfold PyStr.strip. split.
  - apply rstrip_keeps_first, lstrip_no_leading_space.
  - apply rstrip_no_trailing_space.
Qed.

End Further.

(** ** The further properties on concrete runs of the tool *)

Lemma exec_wraps_subprocess_error_witness :
  isinstance (SubprocessError "timed out") SubprocessError_t = true
  /\ PadzClient._exec
       (pf := platform_of (RunRaised (SubprocessError "timed out")))
       (mk_PadzClient None) ["ls"; "--format"; "json"]%string None []
     = (Raise (PadzError (JStr "Failed to execute command: timed out")),
        [mk_run_request ["padz"; "ls"; "--format"; "json"]%string None None]).
Proof.
  split; [reflexivity |].
  apply (exec_wraps_subprocess_error
           (pf := platform_of (RunRaised (SubprocessError "timed out")))
           (mk_PadzClient None) ["ls"; "--format"; "json"]%string None []
           (SubprocessError "timed out"));
    reflexivity.
Defined.

Lemma exec_propagates_other_exceptions_witness :
  isinstance PermissionError FileNotFoundError_t = false
  /\ isinstance PermissionError SubprocessError_t = false
  /\ PadzClient._exec (pf := platform_of (RunRaised PermissionError))
       (mk_PadzClient None) ["ls"; "--format"; "json"]%string None []
     = (Raise PermissionError,
        [mk_run_request ["padz"; "ls"; "--format"; "json"]%string None None]).
Proof.
  split; [reflexivity |]. split; [reflexivity |].
  apply (exec_propagates_other_exceptions
           (pf := platform_of (RunRaised PermissionError))
           (mk_PadzClient None) ["ls"; "--format"; "json"]%string None []
           PermissionError);
    reflexivity.
Defined.

Lemma operations_surface_exec_failure_witness :
  fst (perform (pf := tool_prints 1 EmptyString "no scratch at index 4")
         (mk_PadzClient None) (View 4 false false) [])
  = Raise (PadzError (JStr "no scratch at index 4")).
Proof.
  apply (operations_surface_exec_failure
           (pf := tool_prints 1 EmptyString "no scratch at index 4")
           (mk_PadzClient None) (View 4 false false) []
           ["view"; "4"; "--format"; "json"]%string None
           (PadzError (JStr "no scratch at index 4")));
    reflexivity.
Defined.

Lemma void_operations_ignore_output_witness :
  Json.loads "Deleted scratch 2" = None
  /\ fst (perform (pf := tool_prints 0 "Deleted scratch 2" EmptyString)
            (mk_PadzClient None) (Delete 2 false) [])
     = Ret ANone.
Proof.
  split; [reflexivity |].
  apply (void_operations_ignore_output
           (pf := tool_prints 0 "Deleted scratch 2" EmptyString)
           (mk_PadzClient None) (Delete 2 false) []
           (mk_run_request ["padz"; "delete"; "2"; "--format"; "json"]%string
              None None)
           "Deleted scratch 2"%string EmptyString);
    reflexivity.
Defined.

Lemma void_operations_raise_domain_errors_witness :
  raises_handled_at (pf := platform_without_tool)
    (mk_run_request ["padz"; "cleanup"; "--format"; "json"; "--days"; "30"]%string
       None None)
  /\ fst (perform (pf := platform_without_tool) (mk_PadzClient None)
            (Cleanup 30) [])
     = Raise (PadzError (JStr
         "padz command not found. Please ensure padz is installed and in PATH"))
  /\ class_of (PadzError (JStr
         "padz command not found. Please ensure padz is installed and in PATH"))
     = PadzError_t.
Proof.
  assert (Hmissing : raises_handled_at (pf := platform_without_tool)
            (mk_run_request
               ["padz"; "cleanup"; "--format"; "json"; "--days"; "30"]%string
               None None)).
  { intros e Hrun. injection Hrun as <-. left. reflexivity. }
  split; [exact Hmissing |]. split; [reflexivity |].
  apply (void_operations_raise_domain_errors
           (pf := platform_without_tool) (mk_PadzClient None) (Cleanup 30) []
           (PadzError (JStr
              "padz command not found. Please ensure padz is installed and in PATH"))
           eq_refl).
  - intros req Hreq. injection Hreq as <-. exact Hmissing.
  - reflexivity.
Defined.

Lemma nonzero_exit_fails_every_operation_witness :
  2 <> 0
  /\ exists msg,
       fst (perform
              (pf := tool_prints 2 (Json.dq "{'content': 'text'}") EmptyString)
              (mk_PadzClient None) (View 1 false false) [])
       = Raise (PadzError msg).
Proof.
  split; [lia |].
  apply (nonzero_exit_fails_every_operation
           (pf := tool_prints 2 (Json.dq "{'content': 'text'}") EmptyString)
           (mk_PadzClient None) (View 1 false false) []
           (mk_run_request ["padz"; "view"; "1"; "--format"; "json"]%string
              None None)
           2 (Json.dq "{'content': 'text'}") EmptyString);
    [reflexivity | reflexivity | lia].
Defined.

Lemma success_requires_clean_exit_witness :
  fst (perform (pf := tool_prints 0 (Json.dq "{'path': '/tmp/x'}") "note")
         (mk_PadzClient None) (Path 1 false) [])
  = Ret (AValue (JStr "/tmp/x"))
  /\ exists req out err,
       snd (perform
              (pf := tool_prints 0 (Json.dq "{'path': '/tmp/x'}") "note")
              (mk_PadzClient None) (Path 1 false) [])
       = [] ++ [req]
       /\ subprocess_run
            (Platform := tool_prints 0 (Json.dq "{'path': '/tmp/x'}") "note")
            req
          = Completed (mk_CompletedProcess 0 out err)
       /\ stdout_error
            (pf := tool_prints 0 (Json.dq "{'path': '/tmp/x'}") "note") out
          = None
       /\ decode_output
            (pf := tool_prints 0 (Json.dq "{'path': '/tmp/x'}") "note")
            (Path 1 false) out
          = Ret (AValue (JStr "/tmp/x")).
Proof.
  split; [reflexivity |].
  apply (success_requires_clean_exit
           (pf := tool_prints 0 (Json.dq "{'path': '/tmp/x'}") "note")
           (mk_PadzClient None) (Path 1 false) []
           (AValue (JStr "/tmp/x"))).
  reflexivity.
Defined.

Lemma from_dict_lookup_errors_witness :
  Scratch.from_dict (JArr []) = Raise TypeError
  /\ Scratch.from_dict (JObj [("id", JStr "a1"); ("title", JStr "t")]%string)
     = Raise (KeyError "project").
Proof.
  split.
  - apply (proj1 from_dict_lookup_errors (JArr [])). reflexivity.
  - apply (proj2 from_dict_lookup_errors
             [("id", JStr "a1"); ("title", JStr "t")]%string
             "project"%string).
    reflexivity.
Defined.

Lemma from_dict_ignores_other_members_witness :
  Scratch.from_dict
    (JObj [("id", JStr "a1"); ("project", JStr "demo"); ("title", JStr "t");
           ("created_at", JStr "2024-01-01T00:00:00Z")]%string)
  = Scratch.from_dict
      (JObj [("size", JInt 12); ("id", JStr "a1"); ("project", JStr "demo");
             ("title", JStr "t"); ("pinned", JBool true);
             ("created_at", JStr "2024-01-01T00:00:00Z")]%string).
Proof.
  apply from_dict_ignores_other_members.
  intros k [<- | [<- | [<- | [<- | []]]]]; reflexivity.
Defined.

Lemma listing_maps_array_in_order_witness :
  fst (perform
         (pf := tool_prints 0
                  (Json.dq
                     "[{'id':'a','project':'p','title':'one','created_at':'2024-01-01T00:00:00Z'}, {'id':'b','project':'p','title':'two','created_at':'2024-01-02T00:00:00Z'}]")
                  EmptyString)
         (mk_PadzClient None) (List false false) [])
  = Ret (AScratches
           [mk_Scratch (JStr "a") (JStr "p") (JStr "one")
              (DateTime.utc_midnight 2024 1 1);
            mk_Scratch (JStr "b") (JStr "p") (JStr "two")
              (DateTime.utc_midnight 2024 1 2)]).
Proof.
  apply (proj2 (listing_maps_array_in_order
                  (pf := tool_prints 0
                           (Json.dq
                              "[{'id':'a','project':'p','title':'one','created_at':'2024-01-01T00:00:00Z'}, {'id':'b','project':'p','title':'two','created_at':'2024-01-02T00:00:00Z'}]")
                           EmptyString)
                  (mk_PadzClient None) (List false false) []
                  (mk_run_request ["padz"; "ls"; "--format"; "json"]%string
                     None None)
                  _ EmptyString _ _ eq_refl eq_refl eq_refl eq_refl)).
  repeat constructor.
Defined.

Lemma listing_fails_at_first_bad_item_witness :
  fst (perform
         (pf := tool_prints 0
                  (Json.dq
                     "[{'id':'a','project':'p','title':'one','created_at':'2024-01-01T00:00:00Z'}, 7, {}]")
                  EmptyString)
         (mk_PadzClient None) (Search "one" false false) [])
  = Raise TypeError.
Proof.
  apply (listing_fails_at_first_bad_item
           (pf := tool_prints 0
                    (Json.dq
                       "[{'id':'a','project':'p','title':'one','created_at':'2024-01-01T00:00:00Z'}, 7, {}]")
                    EmptyString)
           (mk_PadzClient None) (Search "one" false false) []
           (mk_run_request
              ["padz"; "search"; "one"; "--format"; "json"]%string None None)
           (Json.dq
              "[{'id':'a','project':'p','title':'one','created_at':'2024-01-01T00:00:00Z'}, 7, {}]")
           EmptyString
           [JObj [("id", JStr "a"); ("project", JStr "p");
                  ("title", JStr "one");
                  ("created_at", JStr "2024-01-01T00:00:00Z")]%string]
           [JObj []] (JInt 7)
           [mk_Scratch (JStr "a") (JStr "p") (JStr "one")
              (DateTime.utc_midnight 2024 1 1)]
           TypeError);
    reflexivity.
Defined.

Lemma listing_of_non_array_witness :
  fst (perform (pf := tool_prints 0 "{}" EmptyString)
         (mk_PadzClient None) (List true false) [])
  = Ret (AScratches [])
  /\ fst (perform (pf := tool_prints 0 (Json.dq "{'count': 0}") EmptyString)
            (mk_PadzClient None) (List true false) [])
     = Raise TypeError.
Proof.
  split.
  - exact (listing_of_non_array
             (pf := tool_prints 0 "{}" EmptyString)
             (mk_PadzClient None) (List true false) []
             (mk_run_request
                ["padz"; "ls"; "--format"; "json"; "--all"]%string None None)
             "{}"%string EmptyString (JObj [])
             eq_refl eq_refl eq_refl eq_refl eq_refl).
  - exact (listing_of_non_array
             (pf := tool_prints 0 (Json.dq "{'count': 0}") EmptyString)
             (mk_PadzClient None) (List true false) []
             (mk_run_request
                ["padz"; "ls"; "--format"; "json"; "--all"]%string None None)
             (Json.dq "{'count': 0}") EmptyString
             (JObj [("count", JInt 0)]%string)
             eq_refl eq_refl eq_refl eq_refl eq_refl).
Defined.

Lemma member_operations_need_an_object_witness :
  fst (perform (pf := tool_prints 0 "[]" EmptyString)
         (mk_PadzClient None) (View 1 false false) [])
  = Raise TypeError.
Proof.
  apply (member_operations_need_an_object
           (pf := tool_prints 0 "[]" EmptyString)
           (mk_PadzClient None) (View 1 false false) []
           (mk_run_request ["padz"; "view"; "1"; "--format"; "json"]%string
              None None)
           "[]"%string EmptyString (JArr []) "content"%string);
    reflexivity.
Defined.

Lemma nuke_result_members_witness :
  fst (perform
         (pf := tool_prints 0
                  (Json.dq "{'deleted_count': 3, 'scope': 'project'}")
                  EmptyString)
         (mk_PadzClient None) (Nuke false true) [])
  = Ret (ANuke (mk_NukeResult (JInt 3) (JStr "project") JNull)).
Proof.
  apply (nuke_result_members
           (pf := tool_prints 0
                    (Json.dq "{'deleted_count': 3, 'scope': 'project'}")
                    EmptyString)
           (mk_PadzClient None) false []
           (mk_run_request
              ["padz"; "nuke"; "--format"; "json"; "--yes"]%string None None)
           (Json.dq "{'deleted_count': 3, 'scope': 'project'}") EmptyString
           [("deleted_count", JInt 3); ("scope", JStr "project")]%string);
    reflexivity.
Defined.

Lemma flags_follow_parameters_witness :
  (In "--all"%string ["padz"; "search"; "--all"; "--format"; "json"]%string
   <-> false = true \/ Some "--all"%string = Some "--all"%string)
  /\ (In "--global"%string
        ["padz"; "search"; "--all"; "--format"; "json"]%string
      <-> false = true \/ Some "--all"%string = Some "--global"%string).
Proof.
  exact (flags_follow_parameters
           (pf := tool_prints 0 "[]" EmptyString)
           (mk_PadzClient None) (Search "--all" false false) []
           (mk_run_request
              ["padz"; "search"; "--all"; "--format"; "json"]%string
              None None)
           eq_refl).
Defined.

Lemma failure_message_is_trimmed_witness :
  3 <> 0
  /\ exists m : string,
       fst (PadzClient._exec (pf := tool_prints 3 EmptyString "  disk full  ")
              (mk_PadzClient None) ["cleanup"]%string None [])
       = Raise (PadzError (JStr m))
       /\ starts_with_space m = false
       /\ ends_with_space m = false.
Proof.
  split; [lia |].
  apply (failure_message_is_trimmed
           (pf := tool_prints 3 EmptyString "  disk full  ")
           (mk_PadzClient None) ["cleanup"]%string None []
           3 EmptyString "  disk full  ");
    [reflexivity | lia | reflexivity | reflexivity].
Defined.
